(** * Resolve job notification: a model of [job_notif.py]

    The script is a render-completion hook: it loads a JSON settings file,
    queries the host application for the finished job, builds a one-line
    message and hands it to Slack and to the desktop notification centre.

    Python values are embedded as an inductive type, [str] as the UTF-8
    bytes of the text, the external collaborators (file system, clock,
    [json], [slack_sdk], the host scripting API, [subprocess]) as the fields
    of an environment, and the script's functions as computations in a state
    and exception monad over the mutable part of the world. *)

From Stdlib Require Import ZArith NArith Bool String Ascii List DecimalString Lia.
From stdpp Require Import base option gmap strings list.

Open Scope string_scope.

(** ** Text *)

Module Text.

Definition byte (a : ascii) : N := N_of_ascii a.
Definition chr (n : N) : ascii := ascii_of_N n.

(** [str.isspace] on the code points that the UTF-8 encoding writes with
    one, two and three bytes. *)
Definition space1 (a : N) : bool :=
  ((9 <=? a) && (a <=? 13) || (28 <=? a) && (a <=? 32))%N.

Definition space2 (a b : N) : bool :=
  ((a =? 0xC2) && ((b =? 0x85) || (b =? 0xA0)))%N.

Definition space3 (a b c : N) : bool :=
  ((a =? 0xE1) && (b =? 0x9A) && (c =? 0x80)
   || (a =? 0xE2) && (b =? 0x80)
      && ((0x80 <=? c) && (c <=? 0x8A) || (c =? 0xA8) || (c =? 0xA9) || (c =? 0xAF))
   || (a =? 0xE2) && (b =? 0x81) && (c =? 0x9F)
   || (a =? 0xE3) && (b =? 0x80) && (c =? 0x80))%N.

(** Drops the leading white space.  With [back] the bytes of a character
    are met last byte first, which is how the reversed text presents them. *)
Fixpoint drop_space (back : bool) (s : string) : string :=
  match s with
  | EmptyString => s
  | String a r1 =>
      if space1 (byte a) then drop_space back r1 else
      match r1 with
      | EmptyString => s
      | String b r2 =>
          if (if back then space2 (byte b) (byte a) else space2 (byte a) (byte b))
          then drop_space back r2 else
          match r2 with
          | EmptyString => s
          | String c r3 =>
              if (if back then space3 (byte c) (byte b) (byte a)
                  else space3 (byte a) (byte b) (byte c))
              then drop_space back r3 else s
          end
      end
  end.

Definition lstrip (s : string) : string := drop_space false s.
Definition rstrip (s : string) : string := String.rev (drop_space true (String.rev s)).

(** [s.strip()] *)
Definition strip (s : string) : string := rstrip (lstrip s).

(** [s.rstrip('/')] *)
Fixpoint drop_slashes (s : string) : string :=
  match s with
  | String "/" r => drop_slashes r
  | _ => s
  end.
Definition rstrip_slash (s : string) : string := String.rev (drop_slashes (String.rev s)).

(** [s.replace(old, new)] for a one-character [old]. *)
Fixpoint replace1 (old : ascii) (new : string) (s : string) : string :=
  match s with
  | EmptyString => EmptyString
  | String a r => if Ascii.eqb a old then new +:+ replace1 old new r
                  else String a (replace1 old new r)
  end.

Fixpoint contains (x : ascii) (s : string) : bool :=
  match s with
  | EmptyString => false
  | String a r => Ascii.eqb a x || contains x r
  end.

(** The double quote character and the line feed. *)
Definition dquote : ascii := chr 34.
Definition nl : string := String (chr 10) "".

Definition nonempty (s : string) : bool :=
  match s with EmptyString => false | String _ _ => true end.

(** The code points of a UTF-8 text. *)
Definition cont (a : ascii) : N := (byte a - 0x80)%N.

Fixpoint code_points (s : string) : list N :=
  match s with
  | EmptyString => []
  | String a r1 =>
      let x := byte a in
      if (x <? 0xC0)%N then x :: code_points r1 else
      match r1 with
      | EmptyString => [x]
      | String b r2 =>
          if (x <? 0xE0)%N then ((x - 0xC0) * 64 + cont b)%N :: code_points r2 else
          match r2 with
          | EmptyString => [x; byte b]
          | String c r3 =>
              if (x <? 0xF0)%N
              then (((x - 0xE0) * 64 + cont b) * 64 + cont c)%N :: code_points r3 else
              match r3 with
              | EmptyString => [x; byte b; byte c]
              | String d r4 =>
                  ((((x - 0xF0) * 64 + cont b) * 64 + cont c) * 64 + cont d)%N
                    :: code_points r4
              end
          end
      end
  end.

(** The UTF-8 bytes of one code point. *)
Definition encode (cp : N) : string :=
  (if cp <? 0x80 then String (chr cp) ""
   else if cp <? 0x800 then
     String (chr (0xC0 + cp / 64)) (String (chr (0x80 + cp mod 64)) "")
   else if cp <? 0x10000 then
     String (chr (0xE0 + cp / 4096))
       (String (chr (0x80 + (cp / 64) mod 64)) (String (chr (0x80 + cp mod 64)) ""))
   else
     String (chr (0xF0 + cp / 262144))
       (String (chr (0x80 + (cp / 4096) mod 64))
          (String (chr (0x80 + (cp / 64) mod 64)) (String (chr (0x80 + cp mod 64)) ""))))%N.

Definition hex_digit (n : N) : ascii :=
  (if n <? 10 then chr (48 + n) else chr (87 + n))%N.

(** [width] lower-case hexadecimal digits of [n]. *)
Fixpoint hex (width : nat) (n : N) : string :=
  match width with
  | O => ""
  | S w => hex w (n / 16) +:+ String (hex_digit (n mod 16)) ""
  end.

(** [str(n)] for an integer. *)
Definition decimal (z : Z) : string := NilZero.string_of_int (Z.to_int z).

(** [n] written with at least [width] digits, as [%02d] does. *)
Definition zero_padded (width : nat) (n : N) : string :=
  let d := decimal (Z.of_N n) in
  String.concat "" (repeat "0" (width - String.length d)) +:+ d.

(** [s.split()[0]]: the first white-space separated word, if any. *)
Fixpoint word (s : string) : string :=
  match s with
  | EmptyString => ""
  | String a r =>
      if String.eqb (lstrip s) s then String a (word r) else ""
  end.

Definition first_word (s : string) : option string :=
  match lstrip s with
  | EmptyString => None
  | t => Some (word t)
  end.

End Text.

(** ** Python values *)

(** The Unicode database decides which code points above ASCII [repr]
    prints as they are. *)
Class Unicode := { isprintable : N -> bool }.

(** The values the hook meets: what [json.loads] builds and what the host
    hands over (texts, integers, records, lists of records).  A [dict] keeps
    its entries in insertion order, under text keys.  [float] is left out:
    its [str] is the shortest-round-trip formatting of a binary64. *)
#[warnings="-register-all"] Inductive value : Type :=
| VNone
| VBool (b : bool)
| VInt (n : Z)
| VStr (s : string)
| VList (l : list value)
| VDict (d : list (string * value)).

(** An [Exception]: the name of its class and [str(e)].  A [SlackApiError]
    carries the outcome of [e.response.get("error")], [None] when that
    lookup itself raises. *)
Inductive exn : Type :=
| Exception (cls : string) (msg : string)
| SlackApiError (msg : string) (error_field : option value).

(** [str(e)] *)
Definition exn_str (e : exn) : string :=
  match e with
  | Exception _ msg => msg
  | SlackApiError msg _ => msg
  end.

(** What a call into a collaborator does: return or raise. *)
Inductive call_result (A : Type) : Type :=
| Returns (a : A)
| Raises (e : exn).
Arguments Returns {A} a.
Arguments Raises {A} e.

Module Py.

(** [bool(v)] *)
Definition truthy (v : value) : bool :=
  match v with
  | VNone => false
  | VBool b => b
  | VInt n => negb (n =? 0)%Z
  | VStr s => Text.nonempty s
  | VList l => match l with [] => false | _ => true end
  | VDict d => match d with [] => false | _ => true end
  end.

(** [a or b] *)
Definition or (a b : value) : value := if truthy a then a else b.

Definition is_none (v : value) : bool :=
  match v with VNone => true | _ => false end.

Section Repr.
Context {U : Unicode}.

(** One character of [repr(s)], [q] being the quote in use. *)
Definition repr_char (q : N) (c : N) : string :=
  (if (c =? q) || (c =? 92) then String "\" (String (Text.chr c) "")
   else if c =? 9 then "\t"
   else if c =? 10 then "\n"
   else if c =? 13 then "\r"
   else if (c <? 32) || (c =? 127) then "\x" +:+ Text.hex 2 c
   else if c <? 127 then String (Text.chr c) ""
   else if isprintable c then Text.encode c
   else if c <=? 0xff then "\x" +:+ Text.hex 2 c
   else if c <=? 0xffff then "\u" +:+ Text.hex 4 c
   else "\U" +:+ Text.hex 8 c)%N.

(** [repr(s)] for a text: double quotes only when the text has a single
    quote and no double one. *)
Definition repr_str (s : string) : string :=
  let q := if Text.contains "'" s && negb (Text.contains Text.dquote s)
           then Text.dquote else "'"%char in
  String q (String.concat "" (map (repr_char (Text.byte q)) (Text.code_points s)))
    +:+ String q "".

(** [repr(v)] *)
Fixpoint repr (v : value) : string :=
  match v with
  | VNone => "None"
  | VBool b => if b then "True" else "False"
  | VInt n => Text.decimal n
  | VStr s => repr_str s
  | VList l => "[" +:+ String.concat ", " (map repr l) +:+ "]"
  | VDict d =>
      "{" +:+ String.concat ", "
                (map (fun kv => match kv with
                                | (k, x) => repr_str k +:+ ": " +:+ repr x
                                end) d) +:+ "}"
  end.

(** [str(v)], which is also what an f-string field [{v}] prints. *)
Definition str (v : value) : string :=
  match v with
  | VStr s => s
  | _ => repr v
  end.

End Repr.

(** The entry of [d] under [k], if there is one. *)
Fixpoint dict_lookup (d : list (string * value)) (k : string) : option value :=
  match d with
  | [] => None
  | (k', x) :: rest => if String.eqb k' k then Some x else dict_lookup rest k
  end.

(** [d.get(k, default)] *)
Fixpoint dict_get (d : list (string * value)) (k : string) (default : value) : value :=
  match d with
  | [] => default
  | (k', x) :: rest => if String.eqb k' k then x else dict_get rest k default
  end.

Definition dict_has (d : list (string * value)) (k : string) : bool :=
  existsb (fun kv => String.eqb (fst kv) k) d.

(** [v.get(k, default)]: only a [dict] has the method. *)
Definition get (v : value) (k : string) (default : value) : call_result value :=
  match v with
  | VDict d => Returns (dict_get d k default)
  | _ => Raises (Exception "AttributeError" "object has no attribute 'get'")
  end.

Definition number (v : value) : option Z :=
  match v with
  | VBool b => Some (if b then 1 else 0)%Z
  | VInt n => Some n
  | _ => None
  end.

(** [a == b]: numbers by value ([True == 1]), texts and [None] by
    identity of content, lists position by position, dicts entry by entry
    whatever the order. *)
Fixpoint eq (a b : value) : bool :=
  match a with
  | VNone => is_none b
  | VBool _ | VInt _ =>
      match number a, number b with
      | Some x, Some y => (x =? y)%Z
      | _, _ => false
      end
  | VStr s => match b with VStr t => String.eqb s t | _ => false end
  | VList l =>
      match b with
      | VList m =>
          (fix all2 (l : list value) (m : list value) {struct l} : bool :=
             match l, m with
             | [], [] => true
             | x :: l', y :: m' => eq x y && all2 l' m'
             | _, _ => false
             end) l m
      | _ => false
      end
  | VDict d =>
      match b with
      | VDict e =>
          Nat.eqb (List.length d) (List.length e)
          && (fix all (d : list (string * value)) {struct d} : bool :=
                match d with
                | [] => true
                | (k, x) :: d' =>
                    dict_has e k && eq x (dict_get e k VNone) && all d'
                end) d
      | _ => false
      end
  end.

(** The items a [for] loop draws from [v]; a value that is not iterable
    raises [TypeError]. *)
Fixpoint chars (cps : list N) : list value :=
  match cps with
  | [] => []
  | c :: r => VStr (Text.encode c) :: chars r
  end.

Definition iter (v : value) : call_result (list value) :=
  match v with
  | VList l => Returns l
  | VDict d => Returns (map (fun kv => VStr (fst kv)) d)
  | VStr s => Returns (chars (Text.code_points s))
  | _ => Raises (Exception "TypeError" "object is not iterable")
  end.

End Py.

(** ** Paths and dates *)

Module Path.

(** [posixpath.join(a, b)] *)
Definition join (a b : string) : string :=
  match b with
  | String "/" _ => b
  | _ =>
      match String.rev a with
      | EmptyString => b
      | String "/" _ => a +:+ b
      | _ => a +:+ "/" +:+ b
      end
  end.

(** The text after the last slash, reversed, and what comes before it,
    reversed as well and with that slash. *)
Fixpoint until_slash (r : string) : string :=
  match r with
  | EmptyString => EmptyString
  | String "/" _ => r
  | String _ r' => until_slash r'
  end.

(** [posixpath.dirname(p)] *)
Definition dirname (p : string) : string :=
  let head := String.rev (until_slash (String.rev p)) in
  match Text.rstrip_slash head with
  | EmptyString => head
  | stripped => stripped
  end.

(** [path] cut at its first slash. *)
Fixpoint cut (path : string) : string * string :=
  match path with
  | EmptyString => (EmptyString, EmptyString)
  | String "/" _ => (EmptyString, path)
  | String a r => let (n, t) := cut r in (String a n, t)
  end.

(** [posixpath.expanduser(path)], [home_of name] being the home directory
    of user [name] (of the current user for the empty name), if known. *)
Definition expanduser (home_of : string -> option string) (path : string) : string :=
  match path with
  | String "~" r =>
      let (name, tail) := cut r in
      match home_of name with
      | None => path
      | Some userhome =>
          match Text.rstrip_slash userhome +:+ tail with
          | EmptyString => "/"
          | expanded => expanded
          end
      end
  | _ => path
  end.

(** The directories above [p]: its prefixes that stop before a slash. *)
Fixpoint parents (p : string) : list string :=
  match p with
  | EmptyString => []
  | String a r =>
      (match r with String "/" _ => [String a ""] | _ => [] end)
        ++ map (String a) (parents r)
  end.

End Path.

Record datetime := {
  year : N; month : N; day : N;
  hour : N; minute : N; second : N }.

(** [t.strftime("%Y-%m-%d")] *)
Definition strftime_date (t : datetime) : string :=
  Text.zero_padded 4 (year t) +:+ "-" +:+ Text.zero_padded 2 (month t)
    +:+ "-" +:+ Text.zero_padded 2 (day t).

(** [t.strftime("%Y-%m-%d %H:%M:%S")] *)
Definition strftime_stamp (t : datetime) : string :=
  strftime_date t +:+ " " +:+ Text.zero_padded 2 (hour t) +:+ ":"
    +:+ Text.zero_padded 2 (minute t) +:+ ":" +:+ Text.zero_padded 2 (second t).

(** ** The collaborators *)

(** The host's object graph, each method with what a call to it does. *)
Record Project := {
  GetName : call_result value;
  GetRenderJobList : call_result value;
  GetRenderJobStatus : value -> call_result value }.

Record ProjectManager := {
  GetCurrentProject : call_result (option Project) }.

Record Resolve := {
  GetProjectManager : call_result (option ProjectManager) }.

(** What [subprocess.run] hands back for the package installer. *)
Record CompletedProcess := {
  stdout : string;
  stderr : string;
  returncode : Z }.

(** Everything the script reads from outside and does not change. *)
Class Env := {
  (** [os.path.dirname(os.path.abspath(sys.argv[0]))] *)
  script_dir : string;
  sys_version : string;
  sys_executable : string;
  hostname : string;
  platform_name : string;
  (** home directories, for [os.path.expanduser] *)
  home_of : string -> option string;
  (** what the [n]-th reading of [datetime.datetime.now()] shows *)
  clock : nat -> datetime;
  (** refusals of the file system: [os.makedirs] on a path, [open] on a
      path in a mode *)
  makedirs_fails : string -> option exn;
  open_fails : string -> string -> option exn;
  (** [json.loads] and [traceback.format_exc] *)
  json_loads : string -> call_result value;
  format_exc : exn -> string;
  (** the installer run, and whether it leaves [slack_sdk] importable *)
  pip_run : call_result CompletedProcess;
  pip_installs : bool;
  (** [WebClient(token=...)] and [client.chat_postMessage(channel=..., text=...)] *)
  WebClient : string -> option exn;
  chat_postMessage : string -> string -> string -> call_result value;
  (** [subprocess.run(["osascript", ...])] *)
  osascript : list string -> option exn;
  (** the globals the host injects, [None] when a name is not bound *)
  global_resolve : option Resolve;
  scriptapp : call_result (option Resolve);
  global_job : value;
  global_status : value;
  global_error : value }.

(** The calls that leave the process. *)
Inductive event : Type :=
| Pip (argv : list string)
| SlackClient (token : string)
| SlackPost (channel text : string)
| Osascript (argv : list string).

(** Everything the script changes: the file system, the clock readings
    used up, the console, the outbound calls made, the importable
    libraries and the module's own globals. *)
Record state := {
  files : gmap string string;
  dirs : gset string;
  ticks : nat;
  console : list string;
  calls : list event;
  sdk_installed : bool;
  LOG_PATH : string;
  slack_token : string;
  channel_name : string }.

Definition with_files (f : gmap string string) (s : state) : state :=
  {| files := f; dirs := dirs s; ticks := ticks s; console := console s;
     calls := calls s; sdk_installed := sdk_installed s; LOG_PATH := LOG_PATH s;
     slack_token := slack_token s; channel_name := channel_name s |}.

Definition with_dirs (d : gset string) (s : state) : state :=
  {| files := files s; dirs := d; ticks := ticks s; console := console s;
     calls := calls s; sdk_installed := sdk_installed s; LOG_PATH := LOG_PATH s;
     slack_token := slack_token s; channel_name := channel_name s |}.

Definition with_ticks (n : nat) (s : state) : state :=
  {| files := files s; dirs := dirs s; ticks := n; console := console s;
     calls := calls s; sdk_installed := sdk_installed s; LOG_PATH := LOG_PATH s;
     slack_token := slack_token s; channel_name := channel_name s |}.

Definition with_console (c : list string) (s : state) : state :=
  {| files := files s; dirs := dirs s; ticks := ticks s; console := c;
     calls := calls s; sdk_installed := sdk_installed s; LOG_PATH := LOG_PATH s;
     slack_token := slack_token s; channel_name := channel_name s |}.

Definition with_calls (c : list event) (s : state) : state :=
  {| files := files s; dirs := dirs s; ticks := ticks s; console := console s;
     calls := c; sdk_installed := sdk_installed s; LOG_PATH := LOG_PATH s;
     slack_token := slack_token s; channel_name := channel_name s |}.

Definition with_sdk_installed (b : bool) (s : state) : state :=
  {| files := files s; dirs := dirs s; ticks := ticks s; console := console s;
     calls := calls s; sdk_installed := b; LOG_PATH := LOG_PATH s;
     slack_token := slack_token s; channel_name := channel_name s |}.

Definition with_LOG_PATH (p : string) (s : state) : state :=
  {| files := files s; dirs := dirs s; ticks := ticks s; console := console s;
     calls := calls s; sdk_installed := sdk_installed s; LOG_PATH := p;
     slack_token := slack_token s; channel_name := channel_name s |}.

Definition with_slack_token (t : string) (s : state) : state :=
  {| files := files s; dirs := dirs s; ticks := ticks s; console := console s;
     calls := calls s; sdk_installed := sdk_installed s; LOG_PATH := LOG_PATH s;
     slack_token := t; channel_name := channel_name s |}.

Definition with_channel_name (c : string) (s : state) : state :=
  {| files := files s; dirs := dirs s; ticks := ticks s; console := console s;
     calls := calls s; sdk_installed := sdk_installed s; LOG_PATH := LOG_PATH s;
     slack_token := slack_token s; channel_name := c |}.

(** ** Computations: state and exceptions *)

Definition M (A : Type) : Type := state -> call_result A * state.

Definition ret {A} (a : A) : M A := fun s => (Returns a, s).

Definition raise {A} (e : exn) : M A := fun s => (Raises e, s).

Definition bind {A B} (m : M A) (k : A -> M B) : M B :=
  fun s =>
    match m s with
    | (Returns a, s') => k a s'
    | (Raises e, s') => (Raises e, s')
    end.

(** [try: m  except Exception as e: handler e] *)
Definition try_except {A} (m : M A) (handler : exn -> M A) : M A :=
  fun s =>
    match m s with
    | (Returns a, s') => (Returns a, s')
    | (Raises e, s') => handler e s'
    end.

Definition read {A} (field : state -> A) : M A := fun s => (Returns (field s), s).

Definition modify (f : state -> state) : M unit := fun s => (Returns tt, f s).

(** The outcome of a collaborator's call, brought into the computation. *)
Definition call {A} (r : call_result A) : M A :=
  match r with
  | Returns a => ret a
  | Raises e => raise e
  end.

(** A collaborator that either refuses with an exception or goes through. *)
Definition refusal (r : option exn) : M unit :=
  match r with
  | Some e => raise e
  | None => ret tt
  end.

(** [m] never raises. *)
Definition safe {A} (m : M A) : Prop :=
  forall s, exists a, fst (m s) = Returns a.

(** [m] returns [a], whatever the state. *)
Definition gives {A} (m : M A) (a : A) : Prop :=
  forall s, fst (m s) = Returns a.

(** [m] returns [a] unless it raises. *)
Definition ends {A} (m : M A) (a : A) : Prop :=
  forall s, fst (m s) = Returns a \/ exists e, fst (m s) = Raises e.

(** [m] leaves the component [f] of the state as it found it. *)
Definition keeps {B A} (f : state -> B) (m : M A) : Prop :=
  forall s, f (snd (m s)) = f s.

Declare Scope py_scope.
Delimit Scope py_scope with py.
Notation "x <- m ;; k" := (bind m (fun x => k))
  (at level 100, m at next level, right associativity) : py_scope.
Notation "m ;; k" := (bind m (fun _ => k))
  (at level 100, right associativity) : py_scope.
Open Scope py_scope.

(** ** JSON, as [json.dump(obj, f, indent=2)] writes it *)

Module Json.

(** One character of a text, with [ensure_ascii] on. *)
Definition escape (c : N) : string :=
  (if c =? 34 then "\" +:+ String Text.dquote ""
   else if c =? 92 then "\\"
   else if c =? 10 then "\n"
   else if c =? 13 then "\r"
   else if c =? 9 then "\t"
   else if c =? 12 then "\f"
   else if c =? 8 then "\b"
   else if (32 <=? c) && (c <=? 126) then String (Text.chr c) ""
   else if c <? 0x10000 then "\u" +:+ Text.hex 4 c
   else "\u" +:+ Text.hex 4 (0xd800 + ((c - 0x10000) / 1024) mod 1024)
        +:+ "\u" +:+ Text.hex 4 (0xdc00 + (c - 0x10000) mod 1024))%N.

Definition text (s : string) : string :=
  String Text.dquote (String.concat "" (map escape (Text.code_points s)))
    +:+ String Text.dquote "".

Definition margin (level : nat) : string :=
  Text.nl +:+ String.concat "" (repeat "  " level).

Fixpoint dumps (level : nat) (v : value) : string :=
  match v with
  | VNone => "null"
  | VBool b => if b then "true" else "false"
  | VInt n => Text.decimal n
  | VStr s => text s
  | VList [] => "[]"
  | VList l =>
      "[" +:+ margin (S level)
        +:+ String.concat ("," +:+ margin (S level)) (map (dumps (S level)) l)
        +:+ margin level +:+ "]"
  | VDict [] => "{}"
  | VDict d =>
      "{" +:+ margin (S level)
        +:+ String.concat ("," +:+ margin (S level))
              (map (fun kv => match kv with
                              | (k, x) => text k +:+ ": " +:+ dumps (S level) x
                              end) d)
        +:+ margin level +:+ "}"
  end.

(** *** A reader for the texts [dumps] writes

    It reads objects, arrays, texts, integers and the three literals, and
    refuses everything else, numbers with a fraction or an exponent and
    surrogate escapes included.  The concrete environments below use it
    for [json.loads]. *)

Fixpoint skip_ws (s : string) : string :=
  match s with
  | String a r =>
      if (Text.byte a =? 32) || (Text.byte a =? 9) || (Text.byte a =? 10)
         || (Text.byte a =? 13)
      then skip_ws r else s
  | EmptyString => s
  end%N.

Definition hex_value (a : ascii) : option N :=
  let x := Text.byte a in
  (if (48 <=? x) && (x <=? 57) then Some (x - 48)
   else if (97 <=? x) && (x <=? 102) then Some (x - 87)
   else if (65 <=? x) && (x <=? 70) then Some (x - 55)
   else None)%N.

(** The text up to the closing quote, and what follows it. *)
Fixpoint read_text (s : string) : option (string * string) :=
  match s with
  | EmptyString => None
  | String c r =>
      if Ascii.eqb c Text.dquote then Some (EmptyString, r)
      else if (Text.byte c <? 32)%N then None
      else if Ascii.eqb c "\" then
        match r with
        | String e r' =>
            let simple (x : N) :=
              match read_text r' with
              | Some (t, rest) => Some (String (Text.chr x) t, rest)
              | None => None
              end in
            if Ascii.eqb e Text.dquote then simple 34%N
            else if Ascii.eqb e "\" then simple 92%N
            else if Ascii.eqb e "/" then simple 47%N
            else if Ascii.eqb e "b" then simple 8%N
            else if Ascii.eqb e "f" then simple 12%N
            else if Ascii.eqb e "n" then simple 10%N
            else if Ascii.eqb e "r" then simple 13%N
            else if Ascii.eqb e "t" then simple 9%N
            else if Ascii.eqb e "u" then
              match r' with
              | String h1 (String h2 (String h3 (String h4 r''))) =>
                  match hex_value h1, hex_value h2, hex_value h3, hex_value h4 with
                  | Some a, Some b, Some c', Some d =>
                      let cp := (((a * 16 + b) * 16 + c') * 16 + d)%N in
                      if ((0xD800 <=? cp) && (cp <=? 0xDFFF))%N then None else
                      match read_text r'' with
                      | Some (t, rest) => Some (Text.encode cp +:+ t, rest)
                      | None => None
                      end
                  | _, _, _, _ => None
                  end
              | _ => None
              end
            else None
        | EmptyString => None
        end
      else
        match read_text r with
        | Some (t, rest) => Some (String c t, rest)
        | None => None
        end
  end.

Definition digit (a : ascii) : option Z :=
  let x := Text.byte a in
  if ((48 <=? x) && (x <=? 57))%N then Some (Z.of_N x - 48)%Z else None.

Fixpoint read_digits (acc : Z) (s : string) : Z * string :=
  match s with
  | String a r =>
      match digit a with
      | Some d => read_digits (acc * 10 + d) r
      | None => (acc, s)
      end
  | EmptyString => (acc, s)
  end.

(** An integer with no leading zero, not followed by a fraction or an
    exponent. *)
Definition read_int (s : string) : option (Z * string) :=
  let (negative, body) :=
    match s with
    | String "-" r => (true, r)
    | _ => (false, s)
    end in
  match body with
  | String a r =>
      match digit a with
      | None => None
      | Some d =>
          let (n, rest) := if (d =? 0)%Z then (0%Z, r) else read_digits d r in
          match rest with
          | String "." _ | String "e" _ | String "E" _ => None
          | _ => Some (if negative then (- n)%Z else n, rest)
          end
      end
  | EmptyString => None
  end.

(** [d[k] = x] *)
Fixpoint dict_set (d : list (string * value)) (k : string) (x : value)
    : list (string * value) :=
  match d with
  | [] => [(k, x)]
  | (k', y) :: rest =>
      if String.eqb k' k then (k', x) :: rest else (k', y) :: dict_set rest k x
  end.

Fixpoint read_value (fuel : nat) (s : string) : option (value * string) :=
  match fuel with
  | O => None
  | S fuel =>
      match skip_ws s with
      | String "{" r =>
          match skip_ws r with
          | String "}" rest => Some (VDict [], rest)
          | _ => read_members fuel r []
          end
      | String "[" r =>
          match skip_ws r with
          | String "]" rest => Some (VList [], rest)
          | _ => read_elements fuel r []
          end
      | String "t" (String "r" (String "u" (String "e" rest))) => Some (VBool true, rest)
      | String "f" (String "a" (String "l" (String "s" (String "e" rest)))) =>
          Some (VBool false, rest)
      | String "n" (String "u" (String "l" (String "l" rest))) => Some (VNone, rest)
      | String c r =>
          if Ascii.eqb c Text.dquote then
            match read_text r with
            | Some (t, rest) => Some (VStr t, rest)
            | None => None
            end
          else
            match read_int (String c r) with
            | Some (n, rest) => Some (VInt n, rest)
            | None => None
            end
      | EmptyString => None
      end
  end
with read_members (fuel : nat) (s : string) (acc : list (string * value))
    : option (value * string) :=
  match fuel with
  | O => None
  | S fuel =>
      match skip_ws s with
      | String c r =>
          if negb (Ascii.eqb c Text.dquote) then None else
          match read_text r with
          | None => None
          | Some (k, after_key) =>
              match skip_ws after_key with
              | String ":" r' =>
                  match read_value fuel r' with
                  | None => None
                  | Some (x, after_value) =>
                      let acc := dict_set acc k x in
                      match skip_ws after_value with
                      | String "," more => read_members fuel more acc
                      | String "}" rest => Some (VDict acc, rest)
                      | _ => None
                      end
                  end
              | _ => None
              end
          end
      | EmptyString => None
      end
  end
with read_elements (fuel : nat) (s : string) (acc : list value)
    : option (value * string) :=
  match fuel with
  | O => None
  | S fuel =>
      match read_value fuel s with
      | None => None
      | Some (x, after_value) =>
          match skip_ws after_value with
          | String "," more => read_elements fuel more (acc ++ [x])
          | String "]" rest => Some (VList (acc ++ [x]), rest)
          | _ => None
          end
      end
  end.

Definition loads (s : string) : call_result value :=
  match read_value (S (String.length s)) s with
  | Some (v, rest) =>
      match skip_ws rest with
      | EmptyString => Returns v
      | _ => Raises (Exception "JSONDecodeError" "Extra data")
      end
  | None => Raises (Exception "JSONDecodeError" "Expecting value")
  end.

End Json.

(** ** The script *)

Section Script.
Context {U : Unicode} {E : Env}.

(** *** What the script asks of the system *)

(** [datetime.datetime.now()]: each reading uses up one tick. *)
Definition now : M datetime :=
  fun s => (Returns (clock (ticks s)), with_ticks (S (ticks s)) s).

(** [print(line)]; writing to the console is taken never to fail. *)
Definition print (line : string) : M unit :=
  modify (fun s => with_console (console s ++ [line]) s).

Definition emit (e : event) : M unit :=
  modify (fun s => with_calls (calls s ++ [e]) s).

Definition isfile (p : string) : M bool :=
  read (fun s => bool_decide (is_Some (files s !! p))).

Definition isdir (p : string) : M bool :=
  read (fun s => bool_decide (p ∈ dirs s)).

(** [os.makedirs(p, exist_ok=True)] *)
Definition makedirs (p : string) : M unit :=
  d <- isdir p ;;
  if d then ret tt else
  refusal (makedirs_fails p) ;;
  f <- isfile p ;;
  if f then raise (Exception "FileExistsError" p) else
  if negb (Text.nonempty p) then raise (Exception "FileNotFoundError" p) else
  modify (fun s => with_dirs (dirs s ∪ {[ p ]} ∪ list_to_set (Path.parents p)) s).

(** [open(p, mode)], for the three modes the script uses: reading needs
    the file, writing empties or creates it, appending creates it. *)
Definition open (p mode : string) : M unit :=
  refusal (open_fails p mode) ;;
  d <- isdir p ;;
  if d then raise (Exception "IsADirectoryError" p) else
  f <- isfile p ;;
  if String.eqb mode "r" then
    if f then ret tt else raise (Exception "FileNotFoundError" p)
  else if String.eqb mode "w" then
    modify (fun s => with_files (<[ p := "" ]> (files s)) s)
  else
    if f then ret tt else modify (fun s => with_files (<[ p := "" ]> (files s)) s).

(** [f.write(text)] on the file opened at [p] *)
Definition content (p : string) (s : state) : string :=
  match files s !! p with
  | Some t => t
  | None => ""
  end.

Definition write (p text : string) : M unit :=
  modify (fun s => with_files (<[ p := content p s +:+ text ]> (files s)) s).

(** [f.read()] *)
Definition read_text (p : string) : M string := read (content p).

(** [import slack_sdk] and the imports from it *)
Definition import_slack_sdk : M unit :=
  present <- read sdk_installed ;;
  if present then ret tt
  else raise (Exception "ModuleNotFoundError" "No module named 'slack_sdk'").

(** *** Paths *)

Definition CONFIG_PATH : string :=
  Path.join (Path.join script_dir "resolve_slack_settings") "resolve_slack_settings.json".

(** The value [LOG_PATH] is given when the module is loaded. *)
Definition default_log_path (LOG_DATE : string) : string :=
  Path.expanduser home_of ("~/Desktop/resolve_slack_deliver_" +:+ LOG_DATE +:+ ".log").

(** *** Logging *)

Definition _ts : M string :=
  t <- now ;; ret (strftime_stamp t).

Definition log (msg : string) : M unit :=
  t <- _ts ;;
  print ("[" +:+ t +:+ "] " +:+ msg) ;;
  try_except
    (p <- read LOG_PATH ;;
     open p "a" ;;
     t' <- _ts ;;
     write p ("[" +:+ t' +:+ "] " +:+ msg +:+ Text.nl))
    (fun _ => ret tt).

(** *** Configuration *)

Definition template : list (string * value) :=
  [ ("slack_token", VStr "xoxb-REPLACE_WITH_YOUR_TOKEN");
    ("channel_name", VStr "CXXXXXXXX");
    ("log_directory", VStr "~/Desktop/resolve_slack_deliver_{{date}}.log") ].

Definition ensure_config_exists (config_path : string) : M bool :=
  present <- isfile config_path ;;
  if present then ret true else
  try_except
    (makedirs (Path.dirname config_path) ;;
     open config_path "w" ;;
     write config_path (Json.dumps 0 (VDict template)) ;;
     log ("Config created at " +:+ config_path) ;;
     log "Please edit the file and relaunch the render." ;;
     ret false)
    (fun e =>
       log "Config error: failed to create config file" ;;
       log (format_exc e) ;;
       ret false).

Definition load_config (config_path : string) : M (list (string * value)) :=
  open config_path "r" ;;
  raw <- read_text config_path ;;
  if negb (Text.nonempty (Text.strip raw))
  then raise (Exception "ValueError" "Config file is empty") else
  cfg <- call (json_loads raw) ;;
  match cfg with
  | VDict d => ret d
  | _ => raise (Exception "ValueError" "Config root must be a JSON object")
  end.

Definition build_log_path (cfg : list (string * value)) : M string :=
  let base_dir := Py.dict_get cfg "log_directory" (VStr "~/Desktop") in
  let base_dir :=
    match base_dir with
    | VStr d => if Text.nonempty (Text.strip d) then d else "~/Desktop"
    | _ => "~/Desktop"
    end in
  let base_dir := Path.expanduser home_of base_dir in
  t <- now ;;
  let filename := "resolve_slack_deliver_" +:+ strftime_date t +:+ ".log" in
  ret (Path.join base_dir filename).

Definition init_from_config : M bool :=
  present <- ensure_config_exists CONFIG_PATH ;;
  if negb present then ret false else
  try_except
    (cfg <- load_config CONFIG_PATH ;;
     modify (with_slack_token
               (Text.strip (Py.str (Py.dict_get cfg "slack_token" (VStr ""))))) ;;
     modify (with_channel_name
               (Text.strip (Py.str (Py.dict_get cfg "channel_name" (VStr ""))))) ;;
     path <- build_log_path cfg ;;
     modify (with_LOG_PATH path) ;;
     let log_dir := Path.dirname path in
     there <- isdir log_dir ;;
     made <- (if there then ret true else
              try_except
                (makedirs log_dir ;; ret true)
                (fun _ =>
                   log ("Config error: cannot create log directory " +:+ log_dir) ;;
                   ret false)) ;;
     if negb made then ret false else
     token <- read slack_token ;;
     if negb (Text.nonempty token) then
       log "Config error: 'slack_token' is missing or empty" ;; ret false
     else
     channel <- read channel_name ;;
     if negb (Text.nonempty channel) then
       log "Config error: 'channel_name' is missing or empty" ;; ret false
     else ret true)
    (fun e =>
       log ("Config error: " +:+ exn_str e) ;;
       log (format_exc e) ;;
       ret false).

(** *** The messaging library *)

Definition ensure_slack_sdk_installed (log_func : string -> M unit) : M bool :=
  found <- try_except
             (import_slack_sdk ;;
              log_func "Dependency check: slack_sdk already installed" ;;
              ret true)
             (fun _ =>
                log_func "Dependency check: slack_sdk missing, attempting installation" ;;
                ret false) ;;
  if found then ret true else
  try_except
    (let python_exec := sys_executable in
     log_func ("Dependency install: using python " +:+ python_exec) ;;
     emit (Pip [python_exec; "-m"; "pip"; "install"; "--upgrade"; "slack_sdk"]) ;;
     result <- call pip_run ;;
     modify (fun s => with_sdk_installed (sdk_installed s || pip_installs) s) ;;
     (if Text.nonempty (Text.strip (stdout result))
      then log_func ("pip stdout:" +:+ Text.nl +:+ Text.strip (stdout result))
      else ret tt) ;;
     (if Text.nonempty (Text.strip (stderr result))
      then log_func ("pip stderr:" +:+ Text.nl +:+ Text.strip (stderr result))
      else ret tt) ;;
     if negb (returncode result =? 0)%Z then
       log_func "Dependency install failed (pip error)" ;; ret false
     else
     import_slack_sdk ;;
     log_func "Dependency install: slack_sdk successfully installed" ;;
     ret true)
    (fun e =>
       log_func ("Dependency install failed: " +:+ exn_str e) ;;
       log_func (format_exc e) ;;
       ret false).

(** *** The host *)

Definition get_resolve : option Resolve :=
  match global_resolve with
  | Some r => Some r
  | None =>
      match scriptapp with
      | Returns (Some r) => Some r
      | _ => None
      end
  end.

Definition get_globals : value * value * value :=
  (global_job, global_status, global_error).

(** The loop of [get_job_details] over the items of the job list. *)
Fixpoint scan_job_list (job_id : value) (job_list : list value) : value :=
  match job_list with
  | [] => VNone
  | jd :: rest =>
      match Py.get jd "JobId" VNone with
      | Returns found => if Py.eq found job_id then jd else scan_job_list job_id rest
      | Raises _ => scan_job_list job_id rest
      end
  end.

Definition get_job_details (project : Project) (job_id : value) : call_result value :=
  match GetRenderJobList project with
  | Raises _ => Returns VNone
  | Returns listed =>
      match Py.iter (Py.or listed (VList [])) with
      | Returns job_list => Returns (scan_job_list job_id job_list)
      | Raises e => Raises e
      end
  end.

Definition get_detailed_status (project : Project) (job_id : value) : value :=
  if Py.is_none job_id then VNone else
  match GetRenderJobStatus project job_id with
  | Returns st => st
  | Raises _ => VNone
  end.

(** *** The message *)

Definition pick_status (status_global detailed_status : value) : string :=
  if Py.truthy status_global then Py.str status_global else
  let from_field :=
    match detailed_status with
    | VDict d =>
        let s := Py.or (Py.dict_get d "Status" VNone) (Py.dict_get d "status" VNone) in
        if Py.truthy s then Some (Py.str s) else None
    | _ => None
    end in
  match from_field with
  | Some st => st
  | None => if Py.truthy detailed_status then Py.str detailed_status else "Unknown"
  end.

(** The list [parts] that [build_slack_message] joins. *)
Definition message_parts
    (project_name status_global error_global job_details detailed_status : value)
    : list string :=
  let st := pick_status status_global detailed_status in
  let timeline :=
    match job_details with
    | VDict d =>
        Py.or (Py.or (Py.dict_get d "TimelineName" VNone)
                     (Py.dict_get d "Timeline" VNone)) VNone
    | _ => VNone
    end in
  let outname :=
    match job_details with
    | VDict d =>
        Py.or (Py.or (Py.or (Py.dict_get d "OutputFilename" VNone)
                            (Py.dict_get d "FileName" VNone))
                     (Py.dict_get d "CustomName" VNone)) VNone
    | _ => VNone
    end in
  [st]
    ++ (if Py.truthy project_name then ["[" +:+ Py.str project_name +:+ "]"] else [])
    ++ (if Py.truthy timeline then [Py.str timeline] else [])
    ++ (if Py.truthy outname then ["â†’ " +:+ Py.str outname] else [])
    ++ (if Py.truthy error_global
        then ["(Error: " +:+ Text.strip (Py.str error_global) +:+ ")"] else []).

Definition build_slack_message
    (project_name status_global error_global job_details detailed_status : value)
    : string :=
  String.concat " "
    (message_parts project_name status_global error_global job_details detailed_status).

(** *** The two sinks *)

Definition notify_slack (message : string) : M bool :=
  imported <- try_except
                (import_slack_sdk ;; ret true)
                (fun e =>
                   log "Slack: missing slack_sdk" ;;
                   log (format_exc e) ;;
                   ret false) ;;
  if negb imported then ret false else
  token <- read slack_token ;;
  emit (SlackClient token) ;;
  refusal (WebClient token) ;;
  try_except
    (channel <- read channel_name ;;
     emit (SlackPost channel message) ;;
     resp <- call (chat_postMessage token channel message) ;;
     ok <- call (Py.get resp "ok" (VBool true)) ;;
     ret (Py.truthy ok))
    (fun e =>
       match e with
       | SlackApiError _ error_field =>
           let err :=
             match error_field with
             | Some found => Py.str found
             | None => exn_str e
             end in
           log ("SlackApiError: " +:+ err) ;;
           ret false
       | Exception _ _ =>
           log "Slack: unexpected error" ;;
           log (format_exc e) ;;
           ret false
       end).

Definition quoted (s : string) : string :=
  String Text.dquote s +:+ String Text.dquote "".

Definition notify_macos (title message : string) : M unit :=
  try_except
    (let safe_title := Text.replace1 Text.dquote (String "\" (String Text.dquote "")) title in
     let safe_msg := Text.replace1 Text.dquote (String "\" (String Text.dquote "")) message in
     let argv := ["osascript"; "-e";
                  "display notification " +:+ quoted safe_msg
                    +:+ " with title " +:+ quoted safe_title] in
     emit (Osascript argv) ;;
     refusal (osascript argv))
    (fun e =>
       log "macOS notification failed" ;;
       log (format_exc e)).

(** *** The run *)

Definition main : M unit :=
  configured <- init_from_config ;;
  if negb configured then ret tt else
  ready <- ensure_slack_sdk_installed log ;;
  if negb ready then log "Fatal: slack_sdk dependency unavailable" else
  log "Deliver hook: start" ;;
  version <- match Text.first_word sys_version with
             | Some w => ret w
             | None => raise (Exception "IndexError" "list index out of range")
             end ;;
  log ("Python: " +:+ version +:+ " (" +:+ sys_executable +:+ ")") ;;
  log ("Host: " +:+ hostname +:+ " | OS: " +:+ platform_name) ;;
  log ("Config path: " +:+ CONFIG_PATH) ;;
  path <- read LOG_PATH ;;
  log ("Log path: " +:+ path) ;;
  let '(job_id, status_global, error_global) := get_globals in
  log ("Trigger globals: job=" +:+ Py.repr job_id +:+ " status=" +:+ Py.repr status_global
         +:+ " error=" +:+ Py.repr error_global) ;;
  match get_resolve with
  | None => log "Resolve API: could not obtain 'resolve'"
  | Some r =>
      located <- try_except
                   (pm <- call (GetProjectManager r) ;;
                    project <- match pm with
                               | Some pm => call (GetCurrentProject pm)
                               | None => ret None
                               end ;;
                    ret (Some project))
                   (fun e =>
                      log "Resolve API: error while getting current project" ;;
                      log (format_exc e) ;;
                      ret None) ;;
      match located with
      | None => ret tt
      | Some None => log "Resolve API: no current project"
      | Some (Some project) =>
          let project_name :=
            match GetName project with
            | Returns name => name
            | Raises _ => VStr "(unknown)"
            end in
          let detailed_status := get_detailed_status project job_id in
          job_details <- (if Py.is_none job_id then ret VNone
                          else call (get_job_details project job_id)) ;;
          let slack_msg :=
            build_slack_message project_name status_global error_global
              job_details detailed_status in
          log ("Slack message: " +:+ slack_msg) ;;
          ok <- notify_slack slack_msg ;;
          log (if ok then "Deliver hook: done (Slack OK)"
               else "Deliver hook: done (Slack FAILED)") ;;
          notify_macos "DaVinci Resolve" slack_msg
      end
  end.

(** The module as the interpreter runs it: the globals are set, then
    [main] runs under the outermost guard. *)
Definition script : M unit :=
  t <- now ;;
  let LOG_DATE := strftime_date t in
  modify (with_LOG_PATH (default_log_path LOG_DATE)) ;;
  modify (with_slack_token "") ;;
  modify (with_channel_name "") ;;
  try_except main
    (fun e =>
       log "Deliver hook: fatal error" ;;
       log (format_exc e)).

End Script.

(** ** The log path, as the specification words it *)

(** The directory the settings name: [log_directory] when it is there, is a
    text and is not blank once trimmed; [~/Desktop] otherwise. *)
Definition configured_directory (cfg : list (string * value)) : string :=
  match Py.dict_lookup cfg "log_directory" with
  | Some (VStr d) => if String.eqb (Text.strip d) "" then "~/Desktop" else d
  | _ => "~/Desktop"
  end.

(** [resolve_slack_deliver_<YYYY-MM-DD>.log] for the day [t] falls on. *)
Definition dated_filename (t : datetime) : string :=
  "resolve_slack_deliver_"
    +:+ Text.zero_padded 4 (year t) +:+ "-" +:+ Text.zero_padded 2 (month t)
    +:+ "-" +:+ Text.zero_padded 2 (day t)
    +:+ ".log".

(** The directory of the log file the settings [cfg] lead to, read in
    state [s]. *)
Definition log_dir_of {E : Env} (cfg : list (string * value)) (s : state) : string :=
  Path.dirname (Path.join (Path.expanduser home_of (configured_directory cfg))
                          (dated_filename (clock (ticks s)))).

(** A setting is absent, or blank once trimmed. *)
Definition setting_blank {U : Unicode} (cfg : list (string * value)) (key : string) : Prop :=
  match Py.dict_lookup cfg key with
  | None => True
  | Some v => Text.strip (Py.str v) = ""
  end.

(** The entry of a record under [key], when it is there and truthy. *)
Definition field_if_truthy (d : list (string * value)) (key : string) : option value :=
  match Py.dict_lookup d key with
  | Some x => if Py.truthy x then Some x else None
  | None => None
  end.

(** The [Status] field of a structured detailed status, or else its
    [status] field. *)
Definition status_field (detailed_status : value) : option value :=
  match detailed_status with
  | VDict d =>
      match field_if_truthy d "Status" with
      | Some x => Some x
      | None => field_if_truthy d "status"
      end
  | _ => None
  end.

(** A record of the job list carries the job identifier in its [JobId]
    field; a record whose field cannot be read does not. *)
Definition job_matches (job_id : value) (jd : value) : bool :=
  match Py.get jd "JobId" VNone with
  | Returns found => Py.eq found job_id
  | Raises _ => false
  end.

(** Reading the [JobId] field of a record raises. *)
Definition malformed (jd : value) : Prop :=
  exists e, Py.get jd "JobId" VNone = Raises e.

(** ** Further vocabulary *)

(** The first of [keys] whose field in [d] is there and truthy. *)
Fixpoint first_truthy (d : list (string * value)) (keys : list string) : option value :=
  match keys with
  | [] => None
  | k :: rest =>
      match field_if_truthy d k with
      | Some x => Some x
      | None => first_truthy d rest
      end
  end.

(** The segment an optional text contributes to the message. *)
Definition segment (o : option string) : list string :=
  match o with
  | Some t => [t]
  | None => []
  end.

(** Every double quote of a text comes right after a backslash; [after]
    tells whether the character before the text is one. *)
Fixpoint quotes_guarded (after : bool) (s : string) : bool :=
  match s with
  | EmptyString => true
  | String a r =>
      (if Ascii.eqb a Text.dquote then after else true)
      && quotes_guarded (Ascii.eqb a "\") r
  end.

(** [s.replace('\\"', '"')]: every backslash followed by a double quote
    gives the double quote alone. *)
Fixpoint unescape_quotes (s : string) : string :=
  match s with
  | EmptyString => EmptyString
  | String a r =>
      if Ascii.eqb a "\" then
        match r with
        | String q r' =>
            if Ascii.eqb q Text.dquote then String q (unescape_quotes r')
            else String a (unescape_quotes r)
        | EmptyString => String a (unescape_quotes r)
        end
      else String a (unescape_quotes r)
  end.

(** The argument list [notify_macos] hands to [subprocess.run]. *)
Definition osascript_argv (title message : string) : list string :=
  [ "osascript"; "-e";
    "display notification "
      +:+ quoted (Text.replace1 Text.dquote (String "\" (String Text.dquote "")) message)
      +:+ " with title "
      +:+ quoted (Text.replace1 Text.dquote (String "\" (String Text.dquote "")) title) ].

(** The installer's command line. *)
Definition pip_argv {E : Env} : list string :=
  [sys_executable; "-m"; "pip"; "install"; "--upgrade"; "slack_sdk"].

(** The calls that notify someone: the Slack client, the post and the
    desktop notification; the installer run is not one of them. *)
Definition is_notification (e : event) : bool :=
  match e with
  | SlackClient _ | SlackPost _ _ | Osascript _ => true
  | Pip _ => false
  end.

Definition notifications (l : list event) : list event :=
  List.filter is_notification l.

(** The project the host has open, when every step that leads to it
    answers. *)
Definition current_project {E : Env} : option Project :=
  match get_resolve with
  | Some r =>
      match GetProjectManager r with
      | Returns (Some pm) =>
          match GetCurrentProject pm with
          | Returns (Some project) => Some project
          | _ => None
          end
      | _ => None
      end
  | None => None
  end.

(** ** A concrete studio *)

Module Studio.

(** Every code point above ASCII counts as printable. *)
Definition unicode : Unicode := {| isprintable := fun _ => true |}.

Definition render_job : value :=
  VDict [ ("JobId", VStr "42"); ("TimelineName", VStr "Main");
          ("OutputFilename", VStr "out.mov") ].

Definition project : Project := {|
  GetName := Returns (VStr "MyProj");
  GetRenderJobList :=
    Returns (VList [ VNone;
                     VDict [("JobId", VStr "41"); ("TimelineName", VStr "Teaser")];
                     render_job ]);
  GetRenderJobStatus := fun _ =>
    Returns (VDict [("JobStatus", VStr "Complete"); ("CompletionPercentage", VInt 100)]) |}.

(** A project whose queries about render jobs all fail. *)
Definition host_error : exn := Exception "RuntimeError" "host query failed".

Definition offline_project : Project := {|
  GetName := Returns (VStr "MyProj");
  GetRenderJobList := Raises host_error;
  GetRenderJobStatus := fun _ => Raises host_error |}.

(** A project whose job list starts with records that are not records. *)
Definition untidy_project : Project := {|
  GetName := Returns (VStr "MyProj");
  GetRenderJobList := Returns (VList [VNone; VInt 7; render_job; VStr "tail"]);
  GetRenderJobStatus := fun _ => Returns (VStr "Complete") |}.

Definition resolve : Resolve := {|
  GetProjectManager := Returns (Some {| GetCurrentProject := Returns (Some project) |}) |}.

Definition traceback (e : exn) : string :=
  "Traceback (most recent call last):" +:+ Text.nl
    +:+ match e with
        | Exception cls msg => cls +:+ ": " +:+ msg
        | SlackApiError msg _ => "slack_sdk.errors.SlackApiError: " +:+ msg
        end +:+ Text.nl.

(** The studio where every collaborator cooperates, but for the
    constructor of the Slack client, which is left open. *)
Definition env (web_client : string -> option exn) : Env := {|
  script_dir := "/Users/edit/Scripts/Deliver";
  sys_version := "3.11.4 (main, Jun 20 2023, 17:23:00) [Clang 14.0.3]";
  sys_executable := "/usr/local/bin/python3";
  hostname := "edit-bay-1";
  platform_name := "macOS-14.0-arm64-arm-64bit";
  home_of := fun name => if String.eqb name "" then Some "/Users/edit" else None;
  clock := fun n =>
    {| year := 2025; month := 3; day := 9;
       hour := 14; minute := 5; second := N.of_nat n mod 60 |};
  makedirs_fails := fun _ => None;
  open_fails := fun _ _ => None;
  json_loads := Json.loads;
  format_exc := traceback;
  pip_run := Returns {| stdout := ""; stderr := ""; returncode := 0 |};
  pip_installs := true;
  WebClient := web_client;
  chat_postMessage := fun _ _ _ => Returns (VDict [("ok", VBool true)]);
  osascript := fun _ => None;
  global_resolve := Some resolve;
  scriptapp := Returns None;
  global_job := VStr "42";
  global_status := VStr "Complete";
  global_error := VNone |}.

Definition cooperative : Env := env (fun _ => None).

(** The same studio with a Slack client whose constructor raises. *)
Definition client_error : exn := Exception "TypeError" "unexpected keyword argument".
Definition broken_client : Env := env (fun _ => Some client_error).

(** A machine on which the script has never run: no settings file. *)
Definition first_run : state := {|
  files := ∅;
  dirs := {[ "/Users/edit/Desktop" ]};
  ticks := 0;
  console := [];
  calls := [];
  sdk_installed := true;
  LOG_PATH := "/Users/edit/Desktop/resolve_slack_deliver_2025-03-09.log";
  slack_token := "";
  channel_name := "" |}.

(** The machine as that first run leaves it, console and call record
    cleared: the settings file holds the template, untouched. *)
Definition second_run : state :=
  let after := snd (@init_from_config unicode cooperative first_run) in
  with_console [] (with_calls [] after).

(** A machine whose settings file has been filled in. *)
Definition settings : string :=
  Json.dumps 0 (VDict [ ("slack_token", VStr "xoxb-1");
                        ("channel_name", VStr "C024BE91L");
                        ("log_directory", VStr "~/Desktop") ]).

Definition configured : state :=
  with_files
    {[ "/Users/edit/Scripts/Deliver/resolve_slack_settings/resolve_slack_settings.json"
         := settings ]}
    first_run.

(** A machine whose settings file has a blank token and no channel. *)
Definition partial_settings : list (string * value) :=
  [ ("slack_token", VStr "   "); ("log_directory", VStr "~/Desktop") ].

Definition incomplete : state :=
  with_files
    {[ "/Users/edit/Scripts/Deliver/resolve_slack_settings/resolve_slack_settings.json"
         := Json.dumps 0 (VDict partial_settings) ]}
    first_run.

Definition is_osascript (e : event) : bool :=
  match e with Osascript _ => true | _ => false end.

End Studio.

(** ** Other studios *)

(** The environment [base] with another answer of Slack to a post and
    another host handle among the globals. *)
Definition variant (base : Env)
    (post : string -> string -> string -> call_result value)
    (host : option Resolve) : Env := {|
  script_dir := @script_dir base;
  sys_version := @sys_version base;
  sys_executable := @sys_executable base;
  hostname := @hostname base;
  platform_name := @platform_name base;
  home_of := @home_of base;
  clock := @clock base;
  makedirs_fails := @makedirs_fails base;
  open_fails := @open_fails base;
  json_loads := @json_loads base;
  format_exc := @format_exc base;
  pip_run := @pip_run base;
  pip_installs := @pip_installs base;
  WebClient := @WebClient base;
  chat_postMessage := post;
  osascript := @osascript base;
  global_resolve := host;
  scriptapp := @scriptapp base;
  global_job := @global_job base;
  global_status := @global_status base;
  global_error := @global_error base |}.

(** Slack refuses the token. *)
Definition slack_rejects : Env :=
  variant Studio.cooperative
    (fun _ _ _ => Raises (SlackApiError "The request to the Slack API failed."
                            (Some (VStr "invalid_auth"))))
    (Some Studio.resolve).

(** The script runs outside the host: no [resolve] global, no bridge. *)
Definition hostless : Env :=
  variant Studio.cooperative (@chat_postMessage Studio.cooperative) None.

(** The configured machine once the token and the channel are loaded. *)
Definition loaded : state :=
  with_channel_name "C024BE91L" (with_slack_token "xoxb-1" Studio.configured).

(** The first machine with the settings directory already there. *)
Definition prepared : state :=
  with_dirs {[ "/Users/edit/Scripts/Deliver/resolve_slack_settings" ]} Studio.first_run.

(** A machine without [slack_sdk]. *)
Definition bare : state := with_sdk_installed false Studio.first_run.

(** A project whose job list is not a list. *)
Definition odd_project : Project := {|
  GetName := Returns (VStr "MyProj");
  GetRenderJobList := Returns (VInt 3);
  GetRenderJobStatus := fun _ => Returns VNone |}.

(** * Properties *)

(** ** Values and texts *)

Lemma dict_get_lookup (d : list (string * value)) (k : string) (dflt : value) :
  Py.dict_get d k dflt = default dflt (Py.dict_lookup d k).
Proof.
  induction d as [|[k' x] d IH]; simpl; [reflexivity|].
  destruct (String.eqb k' k); [reflexivity | exact IH].
Qed.

Lemma nonempty_true (s : string) : Text.nonempty s = true <-> s <> "".
Proof. destruct s; simpl; split; congruence. Qed.

Lemma nonempty_false (s : string) : Text.nonempty s = false <-> s = "".
Proof. destruct s; simpl; split; congruence. Qed.

Lemma decimal_nonempty (n : Z) : Text.decimal n <> "".
Proof.
  unfold Text.decimal.
  destruct (Z.to_int n) as [d|d]; [destruct d|]; simpl; discriminate.
Qed.

Section Values.
Context {U : Unicode}.

Lemma repr_str_nonempty (s : string) : Py.repr_str s <> "".
Proof. unfold Py.repr_str. simpl. discriminate. Qed.

(** The text of a truthy value is never empty. *)
Lemma str_truthy (v : value) : Py.truthy v = true -> Py.str v <> "".
Proof.
  destruct v as [|b|n|s|l|d]; simpl; intros H.
  - discriminate.
  - rewrite H. discriminate.
  - apply decimal_nonempty.
  - now apply nonempty_true.
  - discriminate.
  - discriminate.
Qed.

Lemma or_truthy (a b : value) :
  Py.truthy (Py.or a b) = Py.truthy a || Py.truthy b.
Proof. unfold Py.or. destruct (Py.truthy a) eqn:Ha; simpl; auto. Qed.

Lemma get_field_if_truthy (d : list (string * value)) (k : string) :
  field_if_truthy d k =
    if Py.truthy (Py.dict_get d k VNone) then Some (Py.dict_get d k VNone) else None.
Proof.
  unfold field_if_truthy. rewrite dict_get_lookup.
  destruct (Py.dict_lookup d k); reflexivity.
Qed.

End Values.

Lemma concat_cons_nonempty (sep x : string) (rest : list string) :
  x <> "" -> String.concat sep (x :: rest) <> "".
Proof.
  intros Hx. destruct x as [|a x]; [congruence|].
  destruct rest; simpl; discriminate.
Qed.

Lemma concat_cons (sep x : string) (rest : list string) :
  String.concat sep (x :: rest) = x
  \/ exists tail, String.concat sep (x :: rest) = x +:+ sep +:+ tail.
Proof.
  destruct rest as [|y rest]; simpl; [now left | right; eauto].
Qed.

(** ** The message builder *)

Section Message.
Context {U : Unicode}.

Lemma pick_status_cascade (status_global detailed_status : value) :
  pick_status status_global detailed_status =
    (if Py.truthy status_global then Py.str status_global
     else match status_field detailed_status with
          | Some field => Py.str field
          | None =>
              if Py.truthy detailed_status then Py.str detailed_status
              else "Unknown"
          end).
Proof.
  unfold pick_status.
  destruct (Py.truthy status_global); [reflexivity|].
  destruct detailed_status as [|b|n|s|l|d]; try reflexivity.
  unfold status_field. rewrite !get_field_if_truthy. unfold Py.or.
  destruct (Py.truthy (Py.dict_get d "Status" VNone)) eqn:HS; [now rewrite HS|].
  destruct (Py.truthy (Py.dict_get d "status" VNone)) eqn:Hs; reflexivity.
Qed.

(** C5: the status comes from the trigger's own status when that is
    truthy; otherwise from the [Status] field, or else the [status] field,
    of a structured detailed status when that field is truthy; otherwise
    from the detailed status itself when it is truthy; otherwise it is
    the text [Unknown].  Each source gives its [str]. *)
Theorem pick_status_precedence (status_global detailed_status : value) :
  pick_status status_global detailed_status =
    (if Py.truthy status_global then Py.str status_global
     else match status_field detailed_status with
          | Some field => Py.str field
          | None =>
              if Py.truthy detailed_status then Py.str detailed_status
              else "Unknown"
          end)
  /\ pick_status VNone VNone = "Unknown".
Proof. split; [apply pick_status_cascade | reflexivity]. Qed.

Lemma pick_status_nonempty (status_global detailed_status : value) :
  pick_status status_global detailed_status <> "".
Proof.
  rewrite pick_status_cascade.
  destruct (Py.truthy status_global) eqn:Hg; [now apply str_truthy|].
  destruct (status_field detailed_status) as [field|] eqn:Hf.
  - apply str_truthy.
    destruct detailed_status as [|b|n|s|l|d]; try discriminate Hf.
    unfold status_field, field_if_truthy in Hf.
    destruct (Py.dict_lookup d "Status") as [x|].
    + destruct (Py.truthy x) eqn:Hx; [congruence|].
      destruct (Py.dict_lookup d "status") as [y|]; [|discriminate].
      destruct (Py.truthy y) eqn:Hy; congruence.
    + destruct (Py.dict_lookup d "status") as [y|]; [|discriminate].
      destruct (Py.truthy y) eqn:Hy; congruence.
  - destruct (Py.truthy detailed_status) eqn:Hd; [now apply str_truthy|discriminate].
Qed.

(** C10: whatever the inputs, the message is the space-separated join of
    a list of segments whose first one is the resolved status; the status
    is never empty, so neither is the message, which is the status alone
    or the status, a space and the remaining segments. *)
Theorem build_slack_message_starts_with_status
    (project_name status_global error_global job_details detailed_status : value) :
  let st := pick_status status_global detailed_status in
  let message :=
    build_slack_message project_name status_global error_global
      job_details detailed_status in
  message <> ""
  /\ st <> ""
  /\ (exists rest,
        message_parts project_name status_global error_global
          job_details detailed_status = st :: rest
        /\ message = String.concat " " (st :: rest))
  /\ (message = st \/ exists tail, message = st +:+ " " +:+ tail).
Proof.
  cbv zeta. unfold build_slack_message.
  assert (Hparts : exists rest,
             message_parts project_name status_global error_global
               job_details detailed_status
             = pick_status status_global detailed_status :: rest).
  { unfold message_parts. simpl. eauto. }
  destruct Hparts as [rest Hparts]. rewrite Hparts.
  pose proof (pick_status_nonempty status_global detailed_status) as Hst.
  repeat split.
  - now apply concat_cons_nonempty.
  - exact Hst.
  - exists rest. split; reflexivity.
  - apply concat_cons.
Qed.

(** C3: for the job record of the scenario, project [MyProj], status
    [Complete] and no error, the message has the expected segments in the
    expected order, but the separator before the output name is the
    three characters of the source's literal, not a right arrow. *)
Theorem build_slack_message_scenario (detailed_status : value) :
  let job_details :=
    VDict [ ("JobId", VStr "42"); ("TimelineName", VStr "Main");
            ("OutputFilename", VStr "out.mov") ] in
  build_slack_message (VStr "MyProj") (VStr "Complete") VNone job_details detailed_status
    = "Complete [MyProj] Main â†’ out.mov"
  /\ build_slack_message (VStr "MyProj") (VStr "Complete") VNone job_details detailed_status
    <> "Complete [MyProj] Main → out.mov".
Proof.
  cbv zeta.
  assert (H : build_slack_message (VStr "MyProj") (VStr "Complete") VNone
                (VDict [ ("JobId", VStr "42"); ("TimelineName", VStr "Main");
                         ("OutputFilename", VStr "out.mov") ]) detailed_status
              = "Complete [MyProj] Main â†’ out.mov") by reflexivity.
  split; [exact H|]. rewrite H. discriminate.
Qed.

End Message.

(** ** The host queries *)

Lemma scan_job_list_find (job_id : value) (job_list : list value) :
  scan_job_list job_id job_list = default VNone (List.find (job_matches job_id) job_list).
Proof.
  induction job_list as [|jd rest IH]; simpl; [reflexivity|].
  unfold job_matches at 1.
  destruct (Py.get jd "JobId" VNone) as [found|e]; [|exact IH].
  destruct (Py.eq found job_id); [reflexivity | exact IH].
Qed.

Lemma find_first_match {A} (p : A -> bool) (before : list A) (x : A) (after : list A) :
  forallb (fun y => negb (p y)) before = true ->
  p x = true ->
  List.find p (before ++ x :: after) = Some x.
Proof.
  induction before as [|y before IH]; simpl; intros Hb Hx.
  - now rewrite Hx.
  - apply andb_prop in Hb as [Hy Hb].
    destruct (p y); [discriminate | auto].
Qed.

Lemma find_no_match {A} (p : A -> bool) (l : list A) :
  forallb (fun y => negb (p y)) l = true -> List.find p l = None.
Proof.
  induction l as [|y l IH]; simpl; intros Hl; [reflexivity|].
  apply andb_prop in Hl as [Hy Hl].
  destruct (p y); [discriminate | auto].
Qed.

Lemma malformed_never_matches (job_id : value) (bad : list value) :
  Forall malformed bad ->
  forallb (fun jd => negb (job_matches job_id jd)) bad = true.
Proof.
  induction 1 as [|jd bad [e He] _ IH]; simpl; [reflexivity|].
  unfold job_matches at 1. now rewrite He.
Qed.

Lemma get_job_details_listed (project : Project) (job_id : value) (l : list value) :
  GetRenderJobList project = Returns (VList l) ->
  get_job_details project job_id
    = Returns (default VNone (List.find (job_matches job_id) l)).
Proof.
  intros H. unfold get_job_details. rewrite H.
  destruct l as [|jd l]; [reflexivity|].
  unfold Py.or. cbn [Py.truthy Py.iter]. now rewrite scan_job_list_find.
Qed.

(** C7: the job list is scanned in order and the first record whose
    [JobId] equals the job identifier is returned, whatever follows it; no
    matching record, no list, or a host query that raises give [None], and
    neither function raises then. *)
Theorem get_job_details_first_match (project : Project) (job_id : value) :
  (forall before jd after,
      GetRenderJobList project = Returns (VList (before ++ jd :: after)) ->
      forallb (fun x => negb (job_matches job_id x)) before = true ->
      job_matches job_id jd = true ->
      get_job_details project job_id = Returns jd)
  /\ (forall l,
        GetRenderJobList project = Returns (VList l) ->
        forallb (fun x => negb (job_matches job_id x)) l = true ->
        get_job_details project job_id = Returns VNone)
  /\ (forall listed,
        GetRenderJobList project = Returns listed ->
        Py.truthy listed = false ->
        get_job_details project job_id = Returns VNone)
  /\ (forall e,
        GetRenderJobList project = Raises e ->
        get_job_details project job_id = Returns VNone)
  /\ (forall e,
        GetRenderJobStatus project job_id = Raises e ->
        get_detailed_status project job_id = VNone).
Proof.
  repeat split.
  - intros before jd after Hl Hb Hjd.
    rewrite (get_job_details_listed _ _ _ Hl).
    now rewrite (find_first_match _ _ _ _ Hb Hjd).
  - intros l Hl Hnone.
    rewrite (get_job_details_listed _ _ _ Hl).
    now rewrite (find_no_match _ _ Hnone).
  - intros listed Hl Hfalsy. unfold get_job_details. rewrite Hl.
    unfold Py.or. now rewrite Hfalsy.
  - intros e He. unfold get_job_details. now rewrite He.
  - intros e He. unfold get_detailed_status. rewrite He.
    now destruct (Py.is_none job_id).
Qed.

(** C9: records at the head of the job list on which reading [JobId]
    raises are passed over, and the matching record that follows them is the
    one returned. *)
Theorem scan_skips_malformed_records
    (project : Project) (job_id : value) (bad : list value) (jd : value)
    (after : list value) :
  GetRenderJobList project = Returns (VList (bad ++ jd :: after)) ->
  Forall malformed bad ->
  job_matches job_id jd = true ->
  get_job_details project job_id = Returns jd.
Proof.
  intros Hl Hbad Hjd.
  rewrite (get_job_details_listed _ _ _ Hl).
  now rewrite (find_first_match _ _ _ _ (malformed_never_matches job_id bad Hbad) Hjd).
Qed.

(** ** Reasoning about computations *)

Section Laws.
Context {A B : Type}.

Lemma safe_ret (a : A) : safe (ret a).
Proof. intros s. now exists a. Qed.

Lemma safe_read (f : state -> A) : safe (read f).
Proof. intros s. now exists (f s). Qed.

Lemma safe_modify (f : state -> state) : safe (modify f).
Proof. intros s. now exists tt. Qed.

Lemma safe_bind (m : M A) (k : A -> M B) :
  safe m -> (forall a, safe (k a)) -> safe (bind m k).
Proof.
  intros Hm Hk s. unfold bind. destruct (Hm s) as [a Ha].
  destruct (m s) as [[a'|e] s']; simpl in Ha; [|discriminate].
  apply Hk.
Qed.

Lemma safe_try_except (m : M A) (h : exn -> M A) :
  (forall e, safe (h e)) -> safe (try_except m h).
Proof.
  intros Hh s. unfold try_except.
  destruct (m s) as [[a|e] s']; [now exists a | apply Hh].
Qed.

Lemma gives_ret (a : A) : gives (ret a) a.
Proof. intros s. reflexivity. Qed.

Lemma gives_bind (m : M A) (k : A -> M B) (b : B) :
  safe m -> (forall a, gives (k a) b) -> gives (bind m k) b.
Proof.
  intros Hm Hk s. unfold bind. destruct (Hm s) as [a Ha].
  destruct (m s) as [[a'|e] s']; simpl in Ha; [|discriminate].
  apply Hk.
Qed.

Lemma gives_try_except (m : M A) (h : exn -> M A) (a : A) :
  ends m a -> (forall e, gives (h e) a) -> gives (try_except m h) a.
Proof.
  intros Hm Hh s. unfold try_except. specialize (Hm s).
  destruct (m s) as [[a'|e'] s']; simpl in *; [|apply Hh].
  destruct Hm as [Ha|[e He]]; [exact Ha | discriminate].
Qed.

Lemma ends_gives (m : M A) (a : A) : gives m a -> ends m a.
Proof. intros H s. left. apply H. Qed.

Lemma ends_raise (e : exn) (a : A) : ends (raise e) a.
Proof. intros s. right. now exists e. Qed.

Lemma ends_bind (m : M A) (k : A -> M B) (b : B) :
  (forall a, ends (k a) b) -> ends (bind m k) b.
Proof.
  intros Hk s. unfold bind.
  destruct (m s) as [[a|e] s']; [apply Hk | right; now exists e].
Qed.

Lemma keeps_ret (f : state -> B) (a : A) : keeps f (ret a).
Proof. intros s. reflexivity. Qed.

Lemma keeps_raise (f : state -> B) (e : exn) : keeps f (@raise A e).
Proof. intros s. reflexivity. Qed.

Lemma keeps_read (f : state -> B) (g : state -> A) : keeps f (read g).
Proof. intros s. reflexivity. Qed.

Lemma keeps_call (f : state -> B) (r : call_result A) : keeps f (call r).
Proof. intros s. now destruct r. Qed.

Lemma keeps_modify (f : state -> B) (g : state -> state) :
  (forall s, f (g s) = f s) -> keeps f (modify g).
Proof. intros H s. apply H. Qed.

Lemma keeps_try_except (f : state -> B) (m : M A) (h : exn -> M A) :
  keeps f m -> (forall e, keeps f (h e)) -> keeps f (try_except m h).
Proof.
  intros Hm Hh s. unfold try_except. specialize (Hm s).
  destruct (m s) as [[a|e] s']; simpl in *; [exact Hm|].
  now rewrite Hh.
Qed.

End Laws.

Lemma keeps_bind {A B C} (f : state -> C) (m : M A) (k : A -> M B) :
  keeps f m -> (forall a, keeps f (k a)) -> keeps f (bind m k).
Proof.
  intros Hm Hk s. unfold bind. specialize (Hm s).
  destruct (m s) as [[a|e] s']; simpl in *; [|exact Hm].
  now rewrite Hk.
Qed.

Lemma keeps_refusal {B} (f : state -> B) (r : option exn) : keeps f (refusal r).
Proof. intros s. now destruct r. Qed.

Lemma safe_unit (m : M unit) : safe m -> gives m tt.
Proof. intros H s. destruct (H s) as [[] Ha]. exact Ha. Qed.

Create HintDb keeps.
Create HintDb safe.

(** Splits a computation along its structure; what is left are the calls
    the goal has no law for. *)
Ltac keeps_step :=
  first
    [ apply keeps_ret | apply keeps_raise | apply keeps_read | apply keeps_call
    | apply keeps_refusal
    | apply keeps_modify; intros; reflexivity
    | apply keeps_bind; [|intros]
    | apply keeps_try_except; [|intros]
    | match goal with
      | |- keeps _ (if ?b then _ else _) => destruct b
      | |- keeps _ (match ?x with _ => _ end) => destruct x
      | |- keeps _ (let (_, _) := ?x in _) => destruct x
      end
    | solve [auto with keeps] ].

Ltac keeps_all := repeat keeps_step.

Ltac safe_step :=
  first
    [ apply safe_ret | apply safe_read | apply safe_modify
    | apply safe_try_except; intros
    | apply safe_bind; [|intros]
    | match goal with
      | |- safe (if ?b then _ else _) => destruct b
      | |- safe (match ?x with _ => _ end) => destruct x
      end
    | solve [auto with safe] ].

Ltac safe_all := repeat safe_step.


Section Primitives.
Context {U : Unicode} {E : Env}.

Lemma safe_now : safe now.
Proof. intros s. now eexists. Qed.

Lemma safe_ts : safe _ts.
Proof. unfold _ts. apply safe_bind; [apply safe_now | intros; apply safe_ret]. Qed.

Lemma safe_print (line : string) : safe (print line).
Proof. apply safe_modify. Qed.

(** Logging never raises: a log file that cannot be written is passed
    over. *)
Lemma safe_log (msg : string) : safe (log msg).
Proof.
  unfold log. apply safe_bind; [apply safe_ts | intros t].
  apply safe_bind; [apply safe_print | intros _].
  apply safe_try_except. intros e. apply safe_ret.
Qed.

Lemma log_returns (msg : string) (s : state) : fst (log msg s) = Returns tt.
Proof. apply safe_unit, safe_log. Qed.

Section Frame.
Context {B : Type} (f : state -> B).
Hypothesis f_files : forall x s, f (with_files x s) = f s.
Hypothesis f_ticks : forall n s, f (with_ticks n s) = f s.
Hypothesis f_console : forall c s, f (with_console c s) = f s.

Lemma keeps_now : keeps f now.
Proof. intros s. apply f_ticks. Qed.

Lemma keeps_open (p mode : string) : keeps f (open p mode).
Proof.
  unfold open, isdir, isfile.
  repeat first [ apply keeps_modify; intros; apply f_files | keeps_step ].
Qed.

Lemma keeps_write (p text : string) : keeps f (write p text).
Proof. apply keeps_modify. intros. apply f_files. Qed.

(** Logging touches the clock, the console and the log file only. *)
Lemma keeps_log (msg : string) : keeps f (log msg).
Proof.
  unfold log, _ts, print.
  repeat first
    [ apply keeps_now | apply keeps_open | apply keeps_write
    | apply keeps_modify; intros; apply f_console
    | keeps_step ].
Qed.
End Frame.

Lemma log_keeps_calls (msg : string) : keeps calls (log msg).
Proof. apply keeps_log; reflexivity. Qed.

Lemma log_keeps_dirs (msg : string) : keeps dirs (log msg).
Proof. apply keeps_log; reflexivity. Qed.

Lemma log_keeps_slack_token (msg : string) : keeps slack_token (log msg).
Proof. apply keeps_log; reflexivity. Qed.

Lemma log_keeps_channel_name (msg : string) : keeps channel_name (log msg).
Proof. apply keeps_log; reflexivity. Qed.

Lemma log_keeps_sdk (msg : string) : keeps sdk_installed (log msg).
Proof. apply keeps_log; reflexivity. Qed.

End Primitives.

#[export] Hint Resolve safe_log safe_now safe_ts safe_print : safe.
#[export] Hint Resolve log_keeps_calls log_keeps_dirs log_keeps_slack_token
  log_keeps_channel_name log_keeps_sdk : keeps.

(** Runs a computation whose primitives have been unfolded: the innermost
    test that does not reduce is split, and a call to [log] is replaced by
    its return. *)
Ltac destruct_innermost t :=
  lazymatch t with
  | context [match ?y with _ => _ end] => destruct_innermost y
  | _ => destruct t eqn:?
  end.

Ltac simp :=
  cbn [fst snd negb String.eqb Ascii.eqb Bool.eqb files dirs ticks console calls
       sdk_installed LOG_PATH slack_token channel_name with_files with_dirs
       with_ticks with_console with_calls with_sdk_installed with_LOG_PATH
       with_slack_token with_channel_name] in *.

Ltac exec_step :=
  match goal with
  | |- context [log ?m ?s] =>
      let H := fresh "Hlog" in
      pose proof (log_returns m s) as H;
      destruct (log m s) as [[[]|?] ?]; simp; try discriminate H; clear H
  | |- context [match ?x with _ => _ end] => destruct_innermost x; simp
  end.

Lemma append_assoc (a b c : string) : (a +:+ b) +:+ c = a +:+ (b +:+ c).
Proof.
  induction a as [|x a IH]; [reflexivity|].
  change (String x ((a +:+ b) +:+ c) = String x (a +:+ (b +:+ c))).
  now f_equal.
Qed.

(** ** The configuration loader *)

Section Config.
Context {U : Unicode} {E : Env}.

Lemma now_keeps_calls : keeps calls now.
Proof. apply keeps_now. reflexivity. Qed.

Lemma open_keeps_calls (p mode : string) : keeps calls (open p mode).
Proof. apply keeps_open; reflexivity. Qed.

Lemma write_keeps_calls (p text : string) : keeps calls (write p text).
Proof. apply keeps_write; reflexivity. Qed.

Lemma makedirs_keeps_calls (p : string) : keeps calls (makedirs p).
Proof. unfold makedirs, isdir, isfile. keeps_all. Qed.

Hint Resolve now_keeps_calls open_keeps_calls write_keeps_calls
  makedirs_keeps_calls : keeps.

Lemma ensure_config_exists_keeps_calls (p : string) :
  keeps calls (ensure_config_exists p).
Proof. unfold ensure_config_exists, isfile. keeps_all. Qed.

Lemma build_log_path_keeps_calls (cfg : list (string * value)) :
  keeps calls (build_log_path cfg).
Proof. unfold build_log_path. keeps_all. Qed.

Lemma load_config_keeps_calls (p : string) : keeps calls (load_config p).
Proof. unfold load_config, read_text. keeps_all. Qed.

Hint Resolve ensure_config_exists_keeps_calls build_log_path_keeps_calls
  load_config_keeps_calls : keeps.

(** Loading the settings makes no outbound call. *)
Lemma init_from_config_keeps_calls : keeps calls init_from_config.
Proof. unfold init_from_config, isdir. keeps_all. Qed.

Lemma safe_init_from_config : safe init_from_config.
Proof.
  unfold init_from_config, ensure_config_exists, isfile.
  safe_all.
Qed.

Lemma ensure_config_exists_present (p raw : string) (s : state) :
  files s !! p = Some raw -> ensure_config_exists p s = (Returns true, s).
Proof.
  intros H. unfold ensure_config_exists, isfile, bind, read.
  rewrite H. rewrite bool_decide_eq_true_2 by eauto. reflexivity.
Qed.

(** With no settings file the template is written, or fails to be, and
    either way the answer is [False]. *)
Lemma ensure_config_exists_absent (p : string) (s : state) :
  files s !! p = None -> fst (ensure_config_exists p s) = Returns false.
Proof.
  intros H. unfold ensure_config_exists, isfile, read. unfold bind at 1.
  rewrite H. rewrite bool_decide_eq_false_2 by (intros [x Hx]; discriminate).
  apply gives_try_except.
  - repeat (apply ends_bind; intros). apply ends_gives, gives_ret.
  - intros e. repeat (apply gives_bind; [apply safe_log | intros]). apply gives_ret.
Qed.

Lemma setting_blank_get (cfg : list (string * value)) (k : string) :
  setting_blank cfg k ->
  Text.strip (Py.str (Py.dict_get cfg k (VStr ""))) = "".
Proof.
  unfold setting_blank. rewrite dict_get_lookup.
  destruct (Py.dict_lookup cfg k); simpl; auto.
Qed.

Lemma init_from_config_aborts (s : state) (raw : string) (cfg : list (string * value)) :
  files s !! CONFIG_PATH = Some raw ->
  json_loads raw = Returns (VDict cfg) ->
  setting_blank cfg "slack_token" \/ setting_blank cfg "channel_name" ->
  fst (init_from_config s) = Returns false.
Proof.
  intros Hfile Hjson Hblank.
  unfold init_from_config. unfold bind at 1.
  rewrite (ensure_config_exists_present _ _ _ Hfile). simp.
  unfold load_config, build_log_path, makedirs, open, read_text, content, isdir,
    isfile, now, call, refusal, bind, try_except, read, modify, ret, raise.
  repeat (simp; try rewrite Hfile; try rewrite Hjson; exec_step).
  all: try reflexivity.
  all: exfalso; destruct Hblank as [Hb|Hb]; apply setting_blank_get in Hb;
    rewrite Hb in *; discriminate.
Qed.

(** When the loader answers [False], the run is over. *)
Lemma main_stops_without_settings (s : state) :
  fst (init_from_config s) = Returns false ->
  main s = (Returns tt, snd (init_from_config s)).
Proof.
  intros Hinit. unfold main, bind at 1.
  destruct (init_from_config s) as [[b|e] s']; simpl in *; [|discriminate].
  now injection Hinit as ->.
Qed.

(** C6: when the settings that are loaded lack [slack_token] or
    [channel_name], or hold one that is blank once trimmed, the loader
    answers [False], and the run ends there without raising and without
    any outbound call: no Slack client, no post, no desktop notification. *)
Theorem missing_setting_aborts
    (s : state) (raw : string) (cfg : list (string * value)) :
  files s !! CONFIG_PATH = Some raw ->
  json_loads raw = Returns (VDict cfg) ->
  setting_blank cfg "slack_token" \/ setting_blank cfg "channel_name" ->
  fst (init_from_config s) = Returns false
  /\ fst (main s) = Returns tt
  /\ calls (snd (main s)) = calls s.
Proof.
  intros Hfile Hjson Hblank.
  pose proof (init_from_config_aborts s raw cfg Hfile Hjson Hblank) as Hinit.
  split; [exact Hinit|].
  rewrite (main_stops_without_settings s Hinit). simpl.
  split; [reflexivity | apply init_from_config_keeps_calls].
Qed.

End Config.

(** ** The log path and the settings that pass *)

Section LogPath.
Context {U : Unicode} {E : Env}.

Lemma dated_filename_strftime (t : datetime) :
  "resolve_slack_deliver_" +:+ strftime_date t +:+ ".log" = dated_filename t.
Proof.
  unfold dated_filename, strftime_date. now rewrite !append_assoc.
Qed.

Lemma build_log_path_run (cfg : list (string * value)) (s : state) :
  build_log_path cfg s =
    (Returns (Path.join (Path.expanduser home_of (configured_directory cfg))
                        (dated_filename (clock (ticks s)))),
     with_ticks (S (ticks s)) s).
Proof.
  unfold build_log_path, bind, now, ret. rewrite dated_filename_strftime.
  unfold configured_directory. rewrite dict_get_lookup.
  destruct (Py.dict_lookup cfg "log_directory") as [[| | |d| |]|]; try reflexivity.
  simpl. now destruct (Text.strip d).
Qed.

(** C8: for every configuration the log path is the home-expanded
    [log_directory], or the home-expanded [~/Desktop] when [log_directory]
    is missing, is not a text or is blank once trimmed, joined with
    [resolve_slack_deliver_<YYYY-MM-DD>.log] for the date the clock shows
    when the path is built; building it reads the clock once and changes
    nothing else. *)
Theorem build_log_path_spec (cfg : list (string * value)) (s : state) :
  fst (build_log_path cfg s) =
    Returns (Path.join (Path.expanduser home_of (configured_directory cfg))
                       (dated_filename (clock (ticks s))))
  /\ snd (build_log_path cfg s) = with_ticks (S (ticks s)) s.
Proof.
unfold build_log_path, bind, now, ret. rewrite dated_filename_strftime.
assert (Hdir : match Py.dict_get cfg "log_directory" (VStr "~/Desktop") with
               | VStr d => if Text.nonempty (Text.strip d) then d else "~/Desktop"
               | _ => "~/Desktop"
               end = configured_directory cfg).
{ unfold configured_directory. rewrite dict_get_lookup.
  destruct (Py.dict_lookup cfg "log_directory") as [[| | |d| |]|]; try reflexivity.
  simpl. now destruct (Text.strip d). }
rewrite Hdir. split; reflexivity.
Qed.

(** Settings that can be read and whose two required entries are not
    blank are accepted as soon as the log directory is there or can be
    made; the two entries become the token and the channel in use. *)
Lemma init_from_config_accepts (s : state) (raw : string) (cfg : list (string * value)) :
  files s !! CONFIG_PATH = Some raw ->
  open_fails CONFIG_PATH "r" = None ->
  CONFIG_PATH ∉ dirs s ->
  Text.strip raw <> "" ->
  json_loads raw = Returns (VDict cfg) ->
  Text.strip (Py.str (Py.dict_get cfg "slack_token" (VStr ""))) <> "" ->
  Text.strip (Py.str (Py.dict_get cfg "channel_name" (VStr ""))) <> "" ->
  (log_dir_of cfg s ∈ dirs s
   \/ (makedirs_fails (log_dir_of cfg s) = None
       /\ files s !! log_dir_of cfg s = None
       /\ log_dir_of cfg s <> "")) ->
  fst (init_from_config s) = Returns true
  /\ slack_token (snd (init_from_config s))
     = Text.strip (Py.str (Py.dict_get cfg "slack_token" (VStr "")))
  /\ channel_name (snd (init_from_config s))
     = Text.strip (Py.str (Py.dict_get cfg "channel_name" (VStr ""))).
Proof.
  intros Hfile Hopen Hnodir Hraw Hjson Htoken Hchannel Hdir.
  apply nonempty_true in Hraw, Htoken, Hchannel.
  set (accepted := fun r : call_result bool * state =>
         fst r = Returns true
         /\ slack_token (snd r)
            = Text.strip (Py.str (Py.dict_get cfg "slack_token" (VStr "")))
         /\ channel_name (snd r)
            = Text.strip (Py.str (Py.dict_get cfg "channel_name" (VStr "")))).
  change (accepted (init_from_config s)).
  unfold init_from_config. unfold bind at 1.
  rewrite (ensure_config_exists_present _ _ _ Hfile). simp.
  unfold load_config, makedirs, open, read_text, content, isdir,
    isfile, call, refusal, bind, try_except, read, modify, ret, raise.
  unfold log_dir_of in Hdir.
  repeat (simp; try rewrite Hfile; try rewrite Hjson; try rewrite Hopen;
          try rewrite Hraw; try rewrite Htoken; try rewrite Hchannel;
          try rewrite build_log_path_run;
          exec_step).
  all: subst accepted; simp.
  all: try (repeat split; reflexivity).
  all: exfalso;
    repeat match goal with
      | H : bool_decide _ = true |- _ => apply bool_decide_eq_true_1 in H
      | H : bool_decide _ = false |- _ => apply bool_decide_eq_false_1 in H
      | H : negb _ = true |- _ => apply negb_true_iff in H
      | H : negb _ = false |- _ => apply negb_false_iff in H
      | H : Text.nonempty _ = false |- _ => apply nonempty_false in H
      end;
    try contradiction;
    destruct Hdir as [Hd|(Hm & Hf & Hn)]; try contradiction; try congruence.
  all: match goal with
       | H : is_Some (files _ !! _) |- _ =>
           rewrite Hf in H; destruct H as [? H]; discriminate H
       | H : ~ is_Some (Some _) |- _ => apply H; eauto
       end.
Qed.

End LogPath.

(** ** The template *)

Section Template.
Context {U : Unicode} {E : Env}.

Lemma init_from_config_first_run (s : state) :
  files s !! CONFIG_PATH = None -> fst (init_from_config s) = Returns false.
Proof.
  intros Habsent. pose proof (ensure_config_exists_absent _ _ Habsent) as Hwritten.
  unfold init_from_config, bind at 1.
  destruct (ensure_config_exists CONFIG_PATH s) as [[present|e] s'];
    simpl in Hwritten; [|discriminate].
  now injection Hwritten as ->.
Qed.

(** C1, as the code has it: the run that finds no settings file and
    writes the template answers [False] without loading anything; a later
    run that reads the template back unedited accepts it, the placeholder
    token and channel being texts that are not blank, as soon as the log
    directory is there or can be made. *)
Theorem template_passes_validation (s : state) :
  (files s !! CONFIG_PATH = None -> fst (init_from_config s) = Returns false)
  /\ (files s !! CONFIG_PATH = Some (Json.dumps 0 (VDict template)) ->
      open_fails CONFIG_PATH "r" = None ->
      CONFIG_PATH ∉ dirs s ->
      json_loads (Json.dumps 0 (VDict template)) = Returns (VDict template) ->
      (log_dir_of template s ∈ dirs s
       \/ (makedirs_fails (log_dir_of template s) = None
           /\ files s !! log_dir_of template s = None
           /\ log_dir_of template s <> "")) ->
      fst (init_from_config s) = Returns true
      /\ slack_token (snd (init_from_config s)) = "xoxb-REPLACE_WITH_YOUR_TOKEN"
      /\ channel_name (snd (init_from_config s)) = "CXXXXXXXX").
Proof.
  split; [apply init_from_config_first_run|].
  intros Hfile Hopen Hnodir Hjson Hdir.
  assert (Hraw : Text.strip (Json.dumps 0 (VDict template)) <> "")
    by (vm_compute; discriminate).
  assert (Htoken : Text.strip (Py.str (Py.dict_get template "slack_token" (VStr "")))
                   <> "") by (vm_compute; discriminate).
  assert (Hchannel : Text.strip (Py.str (Py.dict_get template "channel_name" (VStr "")))
                     <> "") by (vm_compute; discriminate).
  destruct (init_from_config_accepts s _ template Hfile Hopen Hnodir Hraw Hjson
              Htoken Hchannel Hdir) as (Hok & Ht & Hc).
  rewrite Hok, Ht, Hc. repeat split; reflexivity.
Qed.

End Template.

(** ** The notifier *)

Section Notifier.
Context {U : Unicode} {E : Env}.

(** C2, as the code has it: the client is built between the two guarded
    blocks of [notify_slack], so an exception raised by its constructor
    leaves the function as it is, before any post, with nothing logged and
    no [False] returned. *)
Theorem notify_slack_constructor_raises (message : string) (s : state) (e : exn) :
  sdk_installed s = true ->
  WebClient (slack_token s) = Some e ->
  notify_slack message s
    = (Raises e, with_calls (calls s ++ [SlackClient (slack_token s)]) s).
Proof.
  intros Hsdk Hctor.
  unfold notify_slack, import_slack_sdk, emit, refusal, bind, try_except, read,
    modify, ret, raise.
  rewrite Hsdk. simp. now rewrite Hctor.
Qed.

(** With a constructor that does not raise, every failure of the
    library or of the post is caught. *)
Lemma notify_slack_guarded (message : string) :
  (forall token, WebClient token = None) -> safe (notify_slack message).
Proof.
  intros Hctor. unfold notify_slack.
  apply safe_bind; [apply safe_try_except; intros; safe_all | intros imported].
  destruct imported; cbn [negb]; [|apply safe_ret].
  apply safe_bind; [apply safe_read | intros token].
  apply safe_bind; [apply safe_modify | intros _].
  rewrite Hctor. apply safe_bind; [apply safe_ret | intros _].
  apply safe_try_except. intros e. destruct e; safe_all.
Qed.

End Notifier.

(** C4, as the code has it: in the studio whose Slack client cannot be
    built, the run reaches the notification stage, [main] leaves
    [notify_slack] with the constructor's exception, the outermost guard
    logs it, and the desktop notification is never attempted; in the same
    studio with a client that can be built, the desktop notification
    follows the post. *)
Theorem desktop_notification_skipped :
  fst (@main Studio.unicode Studio.broken_client Studio.configured)
    = Raises Studio.client_error
  /\ calls (snd (@main Studio.unicode Studio.broken_client Studio.configured))
     = [SlackClient "xoxb-1"]
  /\ fst (@script Studio.unicode Studio.broken_client Studio.configured) = Returns tt
  /\ existsb Studio.is_osascript
       (calls (snd (@script Studio.unicode Studio.broken_client Studio.configured)))
     = false
  /\ existsb Studio.is_osascript
       (calls (snd (@script Studio.unicode Studio.cooperative Studio.configured)))
     = true.
Proof. vm_compute. repeat split; reflexivity. Qed.

(** ** The studio, run *)

(** The first run writes the template and stops; the second one, over
    the file as written, accepts it and goes on with the placeholders. *)
Lemma template_passes_validation_witness :
  fst (@init_from_config Studio.unicode Studio.cooperative Studio.first_run)
    = Returns false
  /\ (fst (@init_from_config Studio.unicode Studio.cooperative Studio.second_run)
        = Returns true
      /\ slack_token (snd (@init_from_config Studio.unicode Studio.cooperative
                             Studio.second_run))
         = "xoxb-REPLACE_WITH_YOUR_TOKEN"
      /\ channel_name (snd (@init_from_config Studio.unicode Studio.cooperative
                              Studio.second_run))
         = "CXXXXXXXX").
Proof.
  split.
  - apply (proj1 (@template_passes_validation Studio.unicode Studio.cooperative
                    Studio.first_run)).
    reflexivity.
  - apply (proj2 (@template_passes_validation Studio.unicode Studio.cooperative
                    Studio.second_run)).
    + vm_compute. reflexivity.
    + reflexivity.
    + apply (bool_decide_unpack _). vm_compute. exact I.
    + vm_compute. reflexivity.
    + right. split; [reflexivity|]. split; [vm_compute; reflexivity|].
      vm_compute. discriminate.
Defined.

(** The settings file the first run leaves is the template, and loading
    it is not an abort. *)
Lemma unedited_template_is_accepted :
  files Studio.second_run !! @CONFIG_PATH Studio.cooperative
    = Some (Json.dumps 0 (VDict template))
  /\ fst (@init_from_config Studio.unicode Studio.cooperative Studio.second_run)
     = Returns true
  /\ fst (@init_from_config Studio.unicode Studio.cooperative Studio.second_run)
     <> Returns false.
Proof.
  split; [vm_compute; reflexivity|].
  assert (H : fst (@init_from_config Studio.unicode Studio.cooperative Studio.second_run)
              = Returns true) by (vm_compute; reflexivity).
  split; [exact H|]. rewrite H. discriminate.
Qed.

Lemma notify_slack_constructor_raises_witness :
  @notify_slack Studio.unicode Studio.broken_client "Complete"
    (with_slack_token "xoxb-1" Studio.configured)
  = (Raises Studio.client_error,
     with_calls [SlackClient "xoxb-1"] (with_slack_token "xoxb-1" Studio.configured)).
Proof.
  apply (@notify_slack_constructor_raises Studio.unicode Studio.broken_client
           "Complete" (with_slack_token "xoxb-1" Studio.configured) Studio.client_error);
    reflexivity.
Defined.

Lemma missing_setting_aborts_witness :
  fst (@init_from_config Studio.unicode Studio.cooperative Studio.incomplete)
    = Returns false
  /\ fst (@main Studio.unicode Studio.cooperative Studio.incomplete) = Returns tt
  /\ calls (snd (@main Studio.unicode Studio.cooperative Studio.incomplete))
     = calls Studio.incomplete.
Proof.
  apply (@missing_setting_aborts Studio.unicode Studio.cooperative Studio.incomplete
           (Json.dumps 0 (VDict Studio.partial_settings)) Studio.partial_settings).
  - vm_compute. reflexivity.
  - vm_compute. reflexivity.
  - left. reflexivity.
Defined.

Lemma get_job_details_first_match_witness :
  get_job_details Studio.project (VStr "42") = Returns Studio.render_job
  /\ get_job_details Studio.project (VStr "99") = Returns VNone
  /\ get_job_details
       {| GetName := Returns VNone;
          GetRenderJobList := Returns VNone;
          GetRenderJobStatus := fun _ => Returns VNone |} (VStr "42")
     = Returns VNone
  /\ get_job_details Studio.offline_project (VStr "42") = Returns VNone
  /\ get_detailed_status Studio.offline_project (VStr "42") = VNone.
Proof.
  refine (conj _ (conj _ (conj _ (conj _ _)))).
  - apply (proj1 (get_job_details_first_match Studio.project (VStr "42"))
             [VNone; VDict [("JobId", VStr "41"); ("TimelineName", VStr "Teaser")]]
             Studio.render_job []);
      reflexivity.
  - apply (proj1 (proj2 (get_job_details_first_match Studio.project (VStr "99")))
             [VNone; VDict [("JobId", VStr "41"); ("TimelineName", VStr "Teaser")];
              Studio.render_job]);
      reflexivity.
  - apply (proj1 (proj2 (proj2 (get_job_details_first_match _ (VStr "42")))) VNone);
      reflexivity.
  - apply (proj1 (proj2 (proj2 (proj2
             (get_job_details_first_match Studio.offline_project (VStr "42")))))
             Studio.host_error).
    reflexivity.
  - apply (proj2 (proj2 (proj2 (proj2
             (get_job_details_first_match Studio.offline_project (VStr "42")))))
             Studio.host_error).
    reflexivity.
Defined.

Lemma scan_skips_malformed_records_witness :
  get_job_details Studio.untidy_project (VStr "42") = Returns Studio.render_job.
Proof.
  apply (scan_skips_malformed_records Studio.untidy_project (VStr "42")
           [VNone; VInt 7] Studio.render_job [VStr "tail"]).
  - reflexivity.
  - repeat constructor; eexists; reflexivity.
  - reflexivity.
Defined.

(** * Further properties *)

(** ** More on the message builder *)

Lemma concat_snoc (sep : string) (front : list string) (last : string) :
  front <> [] ->
  String.concat sep (front ++ [last]) = String.concat sep front +:+ sep +:+ last.
Proof.
induction front as [|x front IH]; [congruence|]. intros _.
destruct front as [|y front]; [reflexivity|].
change (x +:+ sep +:+ String.concat sep ((y :: front) ++ [last])
        = (x +:+ sep +:+ String.concat sep (y :: front)) +:+ sep +:+ last).
rewrite IH by discriminate. now rewrite !append_assoc.
Qed.

Section MessageLayout.
Context {U : Unicode}.

(** X1: every segment of the message is a non-empty text and there are
    between one and five of them, so the single spaces of the message
    separate non-empty segments: an omitted field leaves no empty brackets
    and no doubled space of its own. *)
Theorem message_parts_nonempty
    (project_name status_global error_global job_details detailed_status : value) :
  let parts :=
    message_parts project_name status_global error_global job_details detailed_status in
  Forall (fun p => p <> "") parts /\ 1 <= List.length parts <= 5.
Proof.
cbv zeta. unfold message_parts.
set (timeline := match job_details with VDict d => _ | _ => VNone end).
set (outname := match job_details with VDict d => _ | _ => VNone end).
pose proof (pick_status_nonempty status_global detailed_status) as Hst.
split.
- repeat (apply Forall_app; split); [now repeat constructor | | | | ].
  + destruct (Py.truthy project_name); repeat constructor. discriminate.
  + destruct (Py.truthy timeline) eqn:Ht; repeat constructor. now apply str_truthy.
  + destruct (Py.truthy outname); repeat constructor. discriminate.
  + destruct (Py.truthy error_global); repeat constructor. discriminate.
- rewrite !length_app.
  destruct (Py.truthy project_name), (Py.truthy timeline), (Py.truthy outname),
    (Py.truthy error_global); simpl; lia.
Qed.

(** X2: for a job record, the timeline shown is the first truthy one of
    its [TimelineName] and [Timeline] fields and the output name the first
    truthy one of [OutputFilename], [FileName] and [CustomName]; a field
    that is present but empty gives way to the next; a job that is not a
    record contributes neither segment. *)
Theorem message_parts_fallback
    (project_name status_global error_global job_details detailed_status : value) :
  message_parts project_name status_global error_global job_details detailed_status
  = ([pick_status status_global detailed_status]
      ++ (if Py.truthy project_name then ["[" +:+ Py.str project_name +:+ "]"] else [])
      ++ segment (match job_details with
                  | VDict d => Py.str <$> first_truthy d ["TimelineName"; "Timeline"]
                  | _ => None
                  end)
      ++ segment (match job_details with
                  | VDict d =>
                      (fun o => "â†’ " +:+ Py.str o)
                        <$> first_truthy d ["OutputFilename"; "FileName"; "CustomName"]
                  | _ => None
                  end)
      ++ (if Py.truthy error_global
          then ["(Error: " +:+ Text.strip (Py.str error_global) +:+ ")"] else []))%list.
Proof.
unfold message_parts. f_equal. f_equal.
destruct job_details as [| | | | |d]; try reflexivity.
unfold first_truthy. rewrite !get_field_if_truthy. unfold Py.or.
f_equal; [|f_equal].
- destruct (Py.truthy (Py.dict_get d "TimelineName" VNone)) eqn:H1; simpl;
    rewrite ?H1; simpl; [reflexivity|].
  destruct (Py.truthy (Py.dict_get d "Timeline" VNone)) eqn:H2; simpl;
    rewrite ?H2; reflexivity.
- destruct (Py.truthy (Py.dict_get d "OutputFilename" VNone)) eqn:H1; simpl;
    rewrite ?H1; simpl; rewrite ?H1; simpl; [reflexivity|].
  destruct (Py.truthy (Py.dict_get d "FileName" VNone)) eqn:H2; simpl;
    rewrite ?H2; simpl; [reflexivity|].
  destruct (Py.truthy (Py.dict_get d "CustomName" VNone)) eqn:H3; simpl;
    rewrite ?H3; reflexivity.
Qed.

(** X3: when the trigger carries an error, the message ends with a
    space and [(Error: <the trimmed error>)], after a front part that is not
    empty. *)
Theorem build_slack_message_error_suffix
    (project_name status_global error_global job_details detailed_status : value) :
  Py.truthy error_global = true ->
  exists front,
    front <> ""
    /\ build_slack_message project_name status_global error_global job_details
         detailed_status
       = front +:+ " " +:+ "(Error: " +:+ Text.strip (Py.str error_global) +:+ ")".
Proof.
intros Herr. unfold build_slack_message, message_parts.
rewrite Herr. rewrite !app_assoc.
match goal with
| |- context [String.concat " " (?front ++ [?e])] =>
    exists (String.concat " " front); split;
    [| now rewrite concat_snoc by (rewrite <- !app_assoc; discriminate)]
end.
rewrite <- !app_assoc. apply concat_cons_nonempty, pick_status_nonempty.
Qed.

End MessageLayout.

(** ** The log *)

Lemma append_empty (a : string) : a +:+ "" = a.
Proof.
induction a as [|x a IH]; [reflexivity|].
change (String x (a +:+ "") = String x a). now f_equal.
Qed.

Section LogFacts.
Context {U : Unicode} {E : Env}.


(** X4: logging never raises; it prints one line to the console, the
    message behind the time the clock shows, and leaves the outbound calls,
    the directories and the log path as they were, whether or not the log
    file could be written. *)
Theorem log_prints_one_line (msg : string) (s : state) :
  fst (log msg s) = Returns tt
  /\ console (snd (log msg s))
     = (console s ++ ["[" +:+ strftime_stamp (clock (ticks s)) +:+ "] " +:+ msg])%list
  /\ calls (snd (log msg s)) = calls s
  /\ dirs (snd (log msg s)) = dirs s
  /\ LOG_PATH (snd (log msg s)) = LOG_PATH s.
Proof.
split; [apply log_returns|].
split; [|split; [apply log_keeps_calls | split; apply keeps_log; reflexivity]].
unfold log, _ts, print, open, write, isdir, isfile, now, refusal, bind, try_except,
  read, modify, ret, raise.
repeat (simp; match goal with
              | |- context [match ?x with _ => _ end] => destruct_innermost x
              end).
all: reflexivity.
Qed.

(** X5: logging changes no file but the log file, whose earlier
    content it keeps in front of what it adds; when the file can be opened
    for appending, what it adds is one line, stamped with a second reading
    of the clock. *)
Theorem log_appends (msg : string) (s : state) :
  (forall q, q <> LOG_PATH s -> files (snd (log msg s)) !! q = files s !! q)
  /\ (exists suffix,
        content (LOG_PATH s) (snd (log msg s)) = content (LOG_PATH s) s +:+ suffix)
  /\ (open_fails (LOG_PATH s) "a" = None ->
      LOG_PATH s ∉ dirs s ->
      content (LOG_PATH s) (snd (log msg s))
      = content (LOG_PATH s) s
          +:+ "[" +:+ strftime_stamp (clock (S (ticks s))) +:+ "] " +:+ msg +:+ Text.nl).
Proof.
set (P := fun r : call_result unit * state =>
  (forall q, q <> LOG_PATH s -> files (snd r) !! q = files s !! q)
  /\ (exists suffix, content (LOG_PATH s) (snd r) = content (LOG_PATH s) s +:+ suffix)
  /\ (open_fails (LOG_PATH s) "a" = None ->
      LOG_PATH s ∉ dirs s ->
      content (LOG_PATH s) (snd r)
      = content (LOG_PATH s) s
          +:+ "[" +:+ strftime_stamp (clock (S (ticks s))) +:+ "] " +:+ msg +:+ Text.nl)).
change (P (log msg s)).
unfold log, _ts, print, open, write, isdir, isfile, now, refusal, bind,
  try_except, read, modify, ret, raise.
repeat (simp; match goal with
              | |- context [match ?x with _ => _ end] => destruct_innermost x
              end).
all: subst P; simp; unfold content; simp.
all: repeat match goal with
       | H : bool_decide _ = true |- _ => apply bool_decide_eq_true_1 in H
       | H : bool_decide _ = false |- _ => apply bool_decide_eq_false_1 in H
       end.
all: try match goal with
         | H : ~ is_Some ?x |- _ =>
             let Hx := fresh "Hx" in
             destruct x eqn:Hx; [exfalso; apply H; eauto|]
         end.
all: rewrite ?lookup_insert_eq.
all: (split; [|split]).
all: try (intros q Hq; rewrite ?lookup_insert_ne by congruence; first [reflexivity | assumption]).
all: try (intros Hopen Hnodir; first [congruence | contradiction | reflexivity]).
all: try (exists ""; now rewrite append_empty).
all: try (eexists; reflexivity).
Qed.
End LogFacts.

(** ** Running monadic code with its log calls *)

Lemma bind_run {A B} (m : M A) (k : A -> M B) (s s' : state) (a : A) :
  m s = (Returns a, s') -> bind m k s = k a s'.
Proof. intros H. unfold bind. now rewrite H. Qed.

Section LogRuns.
Context {U : Unicode} {E : Env}.

Lemma log_run (msg : string) (s : state) : log msg s = (Returns tt, snd (log msg s)).
Proof.
pose proof (log_returns msg s) as H.
destruct (log msg s) as [r s']. simpl in *. now subst.
Qed.

Lemma log_console (msg : string) (s : state) :
  console (snd (log msg s))
  = (console s ++ ["[" +:+ strftime_stamp (clock (ticks s)) +:+ "] " +:+ msg])%list.
Proof.
unfold log, _ts, print, open, write, isdir, isfile, now, refusal, bind, try_except,
  read, modify, ret, raise.
repeat (simp; match goal with
              | |- context [match ?x with _ => _ end] => destruct_innermost x
              end).
all: reflexivity.
Qed.

Lemma log_files_elsewhere (msg : string) (s : state) (q : string) :
  q <> LOG_PATH s -> files (snd (log msg s)) !! q = files s !! q.
Proof.
intros Hq.
unfold log, _ts, print, open, write, isdir, isfile, now, refusal, bind, try_except,
  read, modify, ret, raise.
repeat (simp; match goal with
              | |- context [match ?x with _ => _ end] => destruct_innermost x
              end).
all: simp; rewrite ?lookup_insert_ne by congruence; reflexivity.
Qed.

Lemma log_keeps_LOG_PATH (msg : string) : keeps LOG_PATH (log msg).
Proof. apply keeps_log; reflexivity. Qed.

End LogRuns.

(** Replaces the next call to [log] by its return, keeping what is known
    of the state it leaves. *)
Ltac log_step :=
  match goal with
  | |- context [log ?m ?s] =>
      let Hr := fresh "Hlog" in
      pose proof (log_returns m s) as Hr;
      let Hc := fresh "Hcalls" in pose proof (log_keeps_calls m s) as Hc;
      let Hk := fresh "Hsdk" in pose proof (log_keeps_sdk m s) as Hk;
      let Ht := fresh "Htok" in pose proof (log_keeps_slack_token m s) as Ht;
      let Hn := fresh "Hchan" in pose proof (log_keeps_channel_name m s) as Hn;
      let Hd := fresh "Hdirs" in pose proof (log_keeps_dirs m s) as Hd;
      let Hp := fresh "Hpath" in pose proof (log_keeps_LOG_PATH m s) as Hp;
      destruct (log m s) as [[[]|?] ?]; simp; try discriminate Hr; clear Hr
  end.

Ltac run_step :=
  first
    [ log_step
    | match goal with
      | |- context [match ?x with _ => _ end] => destruct_innermost x; simp
      end ].

Ltac decided :=
  repeat match goal with
    | H : bool_decide _ = true |- _ => apply bool_decide_eq_true_1 in H
    | H : bool_decide _ = false |- _ => apply bool_decide_eq_false_1 in H
    | H : negb _ = true |- _ => apply negb_true_iff in H
    | H : negb _ = false |- _ => apply negb_false_iff in H
    | H : Text.nonempty _ = false |- _ => apply nonempty_false in H
    | H : Text.nonempty _ = true |- _ => apply nonempty_true in H
    end.

(** ** More on the configuration loader *)

Section ConfigFacts.
Context {U : Unicode} {E : Env}.

(** X6: a settings file that is there is never rewritten: the answer is
    [True] and nothing changes; with no settings file the answer is [False]
    whatever happens to the attempt to write the template, no exception
    leaves the function, and no outbound call is made. *)
Theorem ensure_config_exists_outcome (p : string) (s : state) :
  (is_Some (files s !! p) -> ensure_config_exists p s = (Returns true, s))
  /\ (files s !! p = None ->
      fst (ensure_config_exists p s) = Returns false
      /\ calls (snd (ensure_config_exists p s)) = calls s).
Proof.
split.
- intros [raw Hraw]. now apply ensure_config_exists_present with raw.
- intros Habsent. split.
  + now apply ensure_config_exists_absent.
  + apply ensure_config_exists_keeps_calls.
Qed.

(** X7: when the directory of the settings file is there, the file can
    be opened for writing and the log goes to another file, the run that
    finds no settings file leaves one that holds the template as
    [json.dump] writes it with an indent of two. *)
Theorem ensure_config_exists_writes_template (p : string) (s : state) :
  files s !! p = None ->
  Path.dirname p ∈ dirs s ->
  p ∉ dirs s ->
  open_fails p "w" = None ->
  LOG_PATH s <> p ->
  files (snd (ensure_config_exists p s)) !! p = Some (Json.dumps 0 (VDict template)).
Proof.
intros Habsent Hdir Hnodir Hopen Hlog.
unfold ensure_config_exists, makedirs, open, write, content, isdir, isfile, refusal,
  bind, try_except, read, modify, ret, raise.
simp. rewrite Habsent.
rewrite (bool_decide_eq_false_2 (is_Some None)) by (intros [x Hx]; discriminate).
simp. rewrite (bool_decide_eq_true_2 _ Hdir). simp.
rewrite Hopen. simp. rewrite (bool_decide_eq_false_2 _ Hnodir). simp.
rewrite (log_run _ _). simp. rewrite (log_run _ _). simp.
rewrite !log_files_elsewhere.
- simp. rewrite lookup_insert_eq, lookup_insert_eq. reflexivity.
- simp. congruence.
- rewrite log_keeps_LOG_PATH. simp. congruence.
Qed.

(** X8: reading the settings changes nothing; a file that is blank is
    refused with [ValueError] before [json.loads] is asked, a text that
    [json.loads] refuses raises what [json.loads] raised, a JSON value that
    is not an object is refused with [ValueError], and an object is
    returned as it was read. *)
Theorem load_config_outcome (p raw : string) (s : state) :
  files s !! p = Some raw ->
  open_fails p "r" = None ->
  p ∉ dirs s ->
  load_config p s =
    (if String.eqb (Text.strip raw) ""
     then Raises (Exception "ValueError" "Config file is empty")
     else match json_loads raw with
          | Returns (VDict d) => Returns d
          | Returns _ => Raises (Exception "ValueError" "Config root must be a JSON object")
          | Raises e => Raises e
          end,
     s).
Proof.
intros Hfile Hopen Hnodir.
unfold load_config, open, read_text, content, isdir, isfile, call, refusal, bind,
  read, modify, ret, raise.
simp. rewrite Hopen. simp.
rewrite (bool_decide_eq_false_2 _ Hnodir). simp. rewrite Hfile.
rewrite (bool_decide_eq_true_2 (is_Some (Some raw))) by eauto. simp.
rewrite ?Hfile. simp.
destruct (Text.strip raw) eqn:Hstrip; simp; [reflexivity|].
destruct (json_loads raw) as [[| | | | |d]|e]; reflexivity.
Qed.

(** X9: loading the settings never raises, whatever the file system,
    [json.loads] and the clock do, and makes no outbound call. *)
Theorem init_from_config_never_raises (s : state) :
  (exists ok, fst (init_from_config s) = Returns ok)
  /\ calls (snd (init_from_config s)) = calls s.
Proof.
split; [apply safe_init_from_config | apply init_from_config_keeps_calls].
Qed.

(** X10: when the loader answers [True], the token and the channel it
    has set are not empty, the directory of the log path it has set exists,
    and no file has been written or changed. *)
Theorem init_from_config_true (s : state) :
  fst (init_from_config s) = Returns true ->
  slack_token (snd (init_from_config s)) <> ""
  /\ channel_name (snd (init_from_config s)) <> ""
  /\ Path.dirname (LOG_PATH (snd (init_from_config s))) ∈ dirs (snd (init_from_config s))
  /\ files (snd (init_from_config s)) = files s
  /\ is_Some (files s !! CONFIG_PATH).
Proof.
set (P := fun r : call_result bool * state =>
  fst r = Returns true ->
  slack_token (snd r) <> ""
  /\ channel_name (snd r) <> ""
  /\ Path.dirname (LOG_PATH (snd r)) ∈ dirs (snd r)
  /\ files (snd r) = files s
  /\ is_Some (files s !! CONFIG_PATH)).
change (P (init_from_config s)).
unfold init_from_config. unfold bind at 1.
destruct (files s !! CONFIG_PATH) as [raw|] eqn:Hfile.
- rewrite (ensure_config_exists_present _ _ _ Hfile). simp.
  unfold load_config, makedirs, open, read_text, content, isdir,
    isfile, call, refusal, bind, try_except, read, modify, ret, raise.
  repeat (simp; try rewrite build_log_path_run; exec_step).
  all: subst P; simp; intros Hret; try discriminate Hret.
  all: decided.
  all: repeat split; eauto; try assumption; try set_solver.
- pose proof (ensure_config_exists_absent _ _ Hfile) as Hfalse.
  destruct (ensure_config_exists CONFIG_PATH s) as [[b|e] s']; simpl in Hfalse;
    [|discriminate].
  injection Hfalse as ->. subst P. simpl. discriminate.
Qed.

End ConfigFacts.

(** ** The messaging library and the two sinks *)

Section Sinks.
Context {U : Unicode} {E : Env}.

(** X11: when [slack_sdk] can be imported, the dependency check answers
    [True] without running the installer. *)
Theorem ensure_slack_sdk_installed_present (s : state) :
  sdk_installed s = true ->
  fst (ensure_slack_sdk_installed log s) = Returns true
  /\ calls (snd (ensure_slack_sdk_installed log s)) = calls s
  /\ sdk_installed (snd (ensure_slack_sdk_installed log s)) = true.
Proof.
intros Hsdk.
set (P := fun r : call_result bool * state =>
  fst r = Returns true /\ calls (snd r) = calls s /\ sdk_installed (snd r) = true).
change (P (ensure_slack_sdk_installed log s)).
unfold ensure_slack_sdk_installed, import_slack_sdk, bind, try_except, read, ret, raise.
simp. rewrite Hsdk. simp.
repeat run_step.
subst P. simp. repeat split; congruence.
Qed.

(** X12: when [slack_sdk] cannot be imported, the installer is run once,
    with [-m pip install --upgrade slack_sdk] under the interpreter in use;
    the check answers [True] exactly when the installer returns with exit
    code zero and the import then succeeds, and never raises. *)
Theorem ensure_slack_sdk_installed_missing (s : state) :
  sdk_installed s = false ->
  fst (ensure_slack_sdk_installed log s)
    = Returns (match pip_run with
               | Returns result => (returncode result =? 0)%Z && pip_installs
               | Raises _ => false
               end)
  /\ calls (snd (ensure_slack_sdk_installed log s)) = (calls s ++ [Pip pip_argv])%list.
Proof.
intros Hsdk.
set (P := fun r : call_result bool * state =>
  fst r = Returns (match pip_run with
                   | Returns result => (returncode result =? 0)%Z && pip_installs
                   | Raises _ => false
                   end)
  /\ calls (snd r) = (calls s ++ [Pip pip_argv])%list).
change (P (ensure_slack_sdk_installed log s)).
unfold ensure_slack_sdk_installed, import_slack_sdk, emit, call, bind, try_except, read,
  modify, ret, raise.
simp. rewrite Hsdk. simp.
repeat (run_step; rewrite ?Hsdk in *).
all: subst P; simp; unfold pip_argv.
all: decided.
all: split; [|congruence].
all: repeat match goal with
       | H : (_ =? _)%Z = _ |- _ => rewrite H
       end; cbn [andb]; try reflexivity.
all: destruct pip_installs; rewrite ?orb_true_r, ?orb_false_r in *;
  try reflexivity; congruence.
Qed.

End Sinks.

Section SinkOutcomes.
Context {U : Unicode} {E : Env}.

(** X13: when [slack_sdk] cannot be imported, [notify_slack] answers
    [False] without building a client or posting. *)
Theorem notify_slack_without_sdk (message : string) (s : state) :
  sdk_installed s = false ->
  fst (notify_slack message s) = Returns false
  /\ calls (snd (notify_slack message s)) = calls s.
Proof.
intros Hsdk.
set (P := fun r : call_result bool * state =>
  fst r = Returns false /\ calls (snd r) = calls s).
change (P (notify_slack message s)).
unfold notify_slack, import_slack_sdk, bind, try_except, read, ret, raise.
simp. rewrite Hsdk. simp.
repeat run_step.
subst P. simp. split; congruence.
Qed.

(** X14: once the client is built, [notify_slack] never raises: it
    builds one client with the token, posts the message once to the
    channel, and answers with the truth of the [ok] field of the response,
    [True] when the response has no such field, and [False] when the post
    raises or the response is not a record. *)
Theorem notify_slack_outcome (message : string) (s : state) :
  sdk_installed s = true ->
  WebClient (slack_token s) = None ->
  fst (notify_slack message s)
    = Returns (match chat_postMessage (slack_token s) (channel_name s) message with
               | Returns (VDict d) => Py.truthy (Py.dict_get d "ok" (VBool true))
               | _ => false
               end)
  /\ calls (snd (notify_slack message s))
     = (calls s ++ [SlackClient (slack_token s);
                    SlackPost (channel_name s) message])%list.
Proof.
intros Hsdk Hctor.
set (P := fun r : call_result bool * state =>
  fst r = Returns (match chat_postMessage (slack_token s) (channel_name s) message with
                   | Returns (VDict d) => Py.truthy (Py.dict_get d "ok" (VBool true))
                   | _ => false
                   end)
  /\ calls (snd r)
     = (calls s ++ [SlackClient (slack_token s);
                    SlackPost (channel_name s) message])%list).
change (P (notify_slack message s)).
unfold notify_slack, import_slack_sdk, emit, call, refusal, bind, try_except, read,
  modify, ret, raise.
simp. rewrite Hsdk. simp. rewrite Hctor. simp.
destruct (chat_postMessage (slack_token s) (channel_name s) message)
  as [[| | | | |d]|[cls m|m [found|]]]; simp;
  unfold Py.get; simp; repeat run_step; subst P; simp;
  (split; [reflexivity
          | repeat match goal with
              | H : calls _ = _ |- _ => rewrite H; clear H
              end;
            rewrite <- ?app_assoc; reflexivity]).
Qed.

(** X15: a post that Slack answers is not logged: the only trace
    [notify_slack] leaves is the two calls. *)
Theorem notify_slack_delivered (message : string) (s : state) (d : list (string * value)) :
  sdk_installed s = true ->
  WebClient (slack_token s) = None ->
  chat_postMessage (slack_token s) (channel_name s) message = Returns (VDict d) ->
  snd (notify_slack message s)
  = with_calls (calls s ++ [SlackClient (slack_token s);
                            SlackPost (channel_name s) message])%list s.
Proof.
intros Hsdk Hctor Hpost.
unfold notify_slack, import_slack_sdk, emit, call, refusal, bind, try_except, read,
  modify, ret, raise.
simp. rewrite Hsdk. simp. rewrite Hctor. simp. rewrite Hpost. simp.
rewrite <- app_assoc. reflexivity.
Qed.

(** X16: a [SlackApiError] is logged on one line with the [error] field
    of its response, or with the text of the exception when that field
    cannot be read. *)
Theorem notify_slack_logs_api_error
    (message : string) (s : state) (msg : string) (error_field : option value) :
  sdk_installed s = true ->
  WebClient (slack_token s) = None ->
  chat_postMessage (slack_token s) (channel_name s) message
    = Raises (SlackApiError msg error_field) ->
  console (snd (notify_slack message s))
  = (console s
       ++ ["[" +:+ strftime_stamp (clock (ticks s)) +:+ "] SlackApiError: "
             +:+ match error_field with
                 | Some found => Py.str found
                 | None => msg
                 end])%list.
Proof.
intros Hsdk Hctor Hpost.
unfold notify_slack, import_slack_sdk, emit, call, refusal, bind, try_except, read,
  modify, ret, raise.
simp. rewrite Hsdk. simp. rewrite Hctor. simp. rewrite Hpost. simp.
rewrite (log_run _ _). simp. rewrite log_console. simp.
now destruct error_field.
Qed.

(** X17: the desktop notification never raises, whatever [osascript]
    does, and runs [osascript] exactly once, with the title and the message
    between double quotes in a [display notification] command. *)
Theorem notify_macos_outcome (title message : string) (s : state) :
  fst (notify_macos title message s) = Returns tt
  /\ calls (snd (notify_macos title message s))
     = (calls s ++ [Osascript (osascript_argv title message)])%list.
Proof.
set (P := fun r : call_result unit * state =>
  fst r = Returns tt
  /\ calls (snd r) = (calls s ++ [Osascript (osascript_argv title message)])%list).
change (P (notify_macos title message s)).
unfold notify_macos, emit, refusal, bind, try_except, modify, ret, raise.
simp.
repeat run_step.
all: subst P; simp; unfold osascript_argv; split; [reflexivity | congruence].
Qed.

End SinkOutcomes.

(** ** Escaping *)

Lemma escaped_head (s : string) :
  match Text.replace1 Text.dquote (String "\" (String Text.dquote "")) s with
  | String q _ => Ascii.eqb q Text.dquote = false
  | EmptyString => True
  end.
Proof.
destruct s as [|a r]; simpl; [exact I|].
destruct (Ascii.eqb a Text.dquote) eqn:Ha; [reflexivity | exact Ha].
Qed.

Lemma quotes_guarded_escaped (after : bool) (s : string) :
  quotes_guarded after
    (Text.replace1 Text.dquote (String "\" (String Text.dquote "")) s) = true.
Proof.
revert after. induction s as [|a r IH]; intros after; [reflexivity|].
simpl. destruct (Ascii.eqb a Text.dquote) eqn:Ha.
- change (quotes_guarded after
            (String "\" (String Text.dquote
               (Text.replace1 Text.dquote (String "\" (String Text.dquote "")) r)))
          = true).
  simpl. apply IH.
- simpl. rewrite Ha. apply IH.
Qed.

(** X18: in the text [notify_macos] puts between quotes, every double
    quote of the message comes right after a backslash, and nothing of the
    message is lost: replacing each backslash and double quote by the double
    quote alone gives the message back. *)
Theorem escaping_guards_quotes (s : string) :
  let escaped := Text.replace1 Text.dquote (String "\" (String Text.dquote "")) s in
  quotes_guarded false escaped = true /\ unescape_quotes escaped = s.
Proof.
cbv zeta. split; [apply quotes_guarded_escaped|].
induction s as [|a r IH]; [reflexivity|].
simpl. destruct (Ascii.eqb a Text.dquote) eqn:Ha.
- change (unescape_quotes
            (String "\" (String Text.dquote
               (Text.replace1 Text.dquote (String "\" (String Text.dquote "")) r)))
          = String a r).
  apply Ascii.eqb_eq in Ha. subst a. simpl. now rewrite IH.
- pose proof (escaped_head r) as Hhead. simpl.
  destruct (Ascii.eqb a "\") eqn:Hb; [|now rewrite IH].
  destruct (Text.replace1 Text.dquote (String "\" (String Text.dquote "")) r)
    as [|q r'] eqn:Hr.
  + now rewrite <- IH.
  + rewrite Hhead. now rewrite IH.
Qed.

(** ** More on the host queries *)

(** X19: what [get_job_details] returns is [None] or one of the items
    the job list yields, and then an item whose [JobId] equals the job
    identifier: it never makes up a record. *)
Theorem get_job_details_member (project : Project) (job_id jd : value) :
  get_job_details project job_id = Returns jd ->
  jd = VNone
  \/ (job_matches job_id jd = true
      /\ exists listed job_list,
           GetRenderJobList project = Returns listed
           /\ Py.iter (Py.or listed (VList [])) = Returns job_list
           /\ In jd job_list).
Proof.
unfold get_job_details.
destruct (GetRenderJobList project) as [listed|e] eqn:Hlist.
- destruct (Py.iter (Py.or listed (VList []))) as [job_list|e] eqn:Hiter; [|discriminate].
  intros Hjd. injection Hjd as <-. rewrite scan_job_list_find.
  destruct (List.find (job_matches job_id) job_list) as [found|] eqn:Hfind; [|now left].
  apply List.find_some in Hfind as [Hin Hmatch].
  right. split; [exact Hmatch|]. exists listed, job_list. auto.
- intros Hjd. injection Hjd as <-. now left.
Qed.

(** X20: the loop over the job list is outside the guard of the query:
    when the host answers with a number that is not zero, which is truthy
    and cannot be iterated, [get_job_details] raises [TypeError]. *)
Theorem get_job_details_not_iterable (project : Project) (job_id : value) (n : Z) :
  GetRenderJobList project = Returns (VInt n) ->
  n <> 0%Z ->
  get_job_details project job_id
    = Raises (Exception "TypeError" "object is not iterable").
Proof.
intros Hlist Hn. unfold get_job_details. rewrite Hlist.
unfold Py.or. cbn [Py.truthy].
destruct (n =? 0)%Z eqn:Hz; [apply Z.eqb_eq in Hz; contradiction|].
reflexivity.
Qed.

(** ** The run as a whole *)

Lemma notifications_app (l m : list event) :
  notifications (l ++ m) = (notifications l ++ notifications m)%list.
Proof. apply List.filter_app. Qed.

Section Run.
Context {U : Unicode} {E : Env}.

(** X21: nothing leaves the script: whatever the collaborators do, the
    module runs to its end without an exception, the outermost guard
    logging what [main] raised. *)
Theorem script_never_raises (s : state) : fst (script s) = Returns tt.
Proof.
apply safe_unit. unfold script.
apply safe_bind; [apply safe_now | intros t].
repeat (apply safe_bind; [apply safe_modify | intros _]).
apply safe_try_except. intros e.
apply safe_bind; [apply safe_log | intros _; apply safe_log].
Qed.

End Run.

Section RunFacts.
Context {U : Unicode} {E : Env}.

Lemma run_eq {A} (m : M A) (s : state) (a : A) :
  fst (m s) = Returns a -> m s = (Returns a, snd (m s)).
Proof. destruct (m s) as [r s']. simpl. now intros ->. Qed.

Lemma log_keeps_notifications (msg : string) :
  keeps (fun s => notifications (calls s)) (log msg).
Proof. apply keeps_log; reflexivity. Qed.

Lemma ensure_slack_sdk_installed_facts (s : state) :
  (exists ok, fst (ensure_slack_sdk_installed log s) = Returns ok
              /\ (ok = true ->
                  sdk_installed (snd (ensure_slack_sdk_installed log s)) = true))
  /\ notifications (calls (snd (ensure_slack_sdk_installed log s)))
     = notifications (calls s).
Proof.
set (P := fun r : call_result bool * state =>
  (exists ok, fst r = Returns ok /\ (ok = true -> sdk_installed (snd r) = true))
  /\ notifications (calls (snd r)) = notifications (calls s)).
change (P (ensure_slack_sdk_installed log s)).
unfold ensure_slack_sdk_installed, import_slack_sdk, emit, call, bind, try_except, read,
  modify, ret, raise.
repeat run_step.
all: subst P; simp; decided.
all: split; [eexists; split; [reflexivity | intros; congruence]|].
all: repeat match goal with
       | H : calls _ = _ |- _ => rewrite H; clear H
       end;
     rewrite ?notifications_app; simpl; rewrite ?app_nil_r; reflexivity.
Qed.

Lemma notify_slack_facts (message : string) (s : state) :
  sdk_installed s = true ->
  WebClient (slack_token s) = None ->
  (exists ok, fst (notify_slack message s) = Returns ok)
  /\ calls (snd (notify_slack message s))
     = (calls s ++ [SlackClient (slack_token s);
                    SlackPost (channel_name s) message])%list.
Proof.
intros Hsdk Hctor.
set (P := fun r : call_result bool * state =>
  (exists ok, fst r = Returns ok)
  /\ calls (snd r)
     = (calls s ++ [SlackClient (slack_token s);
                    SlackPost (channel_name s) message])%list).
change (P (notify_slack message s)).
unfold notify_slack, import_slack_sdk, emit, call, refusal, bind, try_except, read,
  modify, ret, raise.
simp. rewrite Hsdk. simp. rewrite Hctor. simp.
repeat run_step.
all: subst P; simp.
all: split; [eexists; reflexivity|].
all: repeat match goal with
       | H : calls _ = _ |- _ => rewrite H; clear H
       end;
     rewrite <- ?app_assoc; reflexivity.
Qed.

Lemma notify_macos_facts (title message : string) (s : state) :
  fst (notify_macos title message s) = Returns tt
  /\ calls (snd (notify_macos title message s))
     = (calls s ++ [Osascript (osascript_argv title message)])%list.
Proof.
set (P := fun r : call_result unit * state =>
  fst r = Returns tt
  /\ calls (snd r) = (calls s ++ [Osascript (osascript_argv title message)])%list).
change (P (notify_macos title message s)).
unfold notify_macos, emit, refusal, bind, try_except, modify, ret, raise.
simp.
repeat run_step.
all: subst P; simp; unfold osascript_argv; split; [reflexivity | congruence].
Qed.

End RunFacts.

Section RunShape.
Context {U : Unicode} {E : Env}.

Lemma bind_raise {A B} (e : exn) (k : A -> M B) (s : state) :
  bind (raise e) k s = (Raises e, s).
Proof. reflexivity. Qed.

Lemma bind_ret {A B} (a : A) (k : A -> M B) (s : state) : bind (ret a) k s = k a s.
Proof. reflexivity. Qed.

Lemma bind_read {A B} (f : state -> A) (k : A -> M B) (s : state) :
  bind (read f) k s = k (f s) s.
Proof. reflexivity. Qed.

(** The lookup of the current project in [main]: it never raises and
    finds the project exactly when every step answers. *)
Lemma locate_facts (r : Resolve) (s : state) :
  let locate :=
    try_except
      (pm <- call (GetProjectManager r) ;;
       project <- match pm with
                  | Some pm => call (GetCurrentProject pm)
                  | None => ret None
                  end ;;
       ret (Some project))
      (fun e =>
         log "Resolve API: error while getting current project" ;;
         log (format_exc e) ;;
         ret None) in
  fst (locate s)
    = Returns (match GetProjectManager r with
               | Returns (Some pm) =>
                   match GetCurrentProject pm with
                   | Returns project => Some project
                   | Raises _ => None
                   end
               | Returns None => Some None
               | Raises _ => None
               end)
  /\ calls (snd (locate s)) = calls s
  /\ sdk_installed (snd (locate s)) = sdk_installed s.
Proof.
cbv zeta.
set (P := fun r' : call_result (option (option Project)) * state =>
  fst r' = Returns (match GetProjectManager r with
                    | Returns (Some pm) =>
                        match GetCurrentProject pm with
                        | Returns project => Some project
                        | Raises _ => None
                        end
                    | Returns None => Some None
                    | Raises _ => None
                    end)
  /\ calls (snd r') = calls s
  /\ sdk_installed (snd r') = sdk_installed s).
match goal with |- fst (?m s) = _ /\ _ => change (P (m s)) end.
unfold call, bind, try_except, ret, raise.
destruct (GetProjectManager r) as [[pm|]|e]; simp;
  [destruct (GetCurrentProject pm) as [project|e]; simp| |];
  repeat run_step; subst P; simp; repeat split; congruence.
Qed.

Ltac next_log := erewrite (bind_run _ _ _ _ _ (log_run _ _)); cbv beta.

Ltac quiet_end P :=
  subst P; left; cbn [fst snd];
  rewrite ?log_keeps_notifications; assumption.

(** X22: with a Slack client that can be built, a run leaves either no
    notification call at all, or exactly three: one client, one post, and
    one desktop notification that carries the message of the post; in the
    second case [main] returns normally.  Whatever the post does, the
    desktop notification follows it. *)
Theorem main_notifications (s : state) :
  (forall token, WebClient token = None) ->
  notifications (calls s) = [] ->
  notifications (calls (snd (main s))) = []
  \/ (fst (main s) = Returns tt
      /\ exists token channel message,
           notifications (calls (snd (main s)))
           = [ SlackClient token; SlackPost channel message;
               Osascript (osascript_argv "DaVinci Resolve" message) ]).
Proof.
intros Hctor Hnone.
set (P := fun r : call_result unit * state =>
  notifications (calls (snd r)) = []
  \/ (fst r = Returns tt
      /\ exists token channel message,
           notifications (calls (snd r))
           = [ SlackClient token; SlackPost channel message;
               Osascript (osascript_argv "DaVinci Resolve" message) ])).
change (P (main s)).
unfold main.
destruct (safe_init_from_config s) as [configured Hinit].
pose proof (init_from_config_keeps_calls s) as Hcalls1.
rewrite (bind_run _ _ _ _ _ (run_eq _ _ _ Hinit)).
set (s1 := snd (init_from_config s)) in *.
destruct configured; cbn [negb].
2:{ subst P. left. unfold ret. simpl. now rewrite Hcalls1. }
destruct (ensure_slack_sdk_installed_facts s1) as [[ready [Hready Hsdk]] Hcalls2].
rewrite (bind_run _ _ _ _ _ (run_eq _ _ _ Hready)).
set (s2 := snd (ensure_slack_sdk_installed log s1)) in *.
assert (Hquiet : notifications (calls s2) = []) by (rewrite Hcalls2, Hcalls1; exact Hnone).
destruct ready; cbn [negb].
2:{ quiet_end P. }
specialize (Hsdk eq_refl).
next_log.
destruct (Text.first_word sys_version) as [version|].
2:{ rewrite bind_raise. quiet_end P. }
rewrite bind_ret. do 3 next_log. rewrite bind_read. next_log.
unfold get_globals. cbv beta iota. next_log.
destruct get_resolve as [r|].
2:{ quiet_end P. }
match goal with
| |- P (bind ?locate _ ?st) =>
    destruct (locate_facts r st) as (Hlocated & Hcalls3 & Hsdk3);
    cbv zeta in Hlocated, Hcalls3, Hsdk3;
    rewrite (bind_run _ _ _ _ _ (run_eq _ _ _ Hlocated));
    set (s3 := snd (locate st)) in *
end.
assert (Hquiet3 : notifications (calls s3) = []).
{ unfold notifications in *. rewrite Hcalls3.
  fold (notifications). rewrite ?log_keeps_notifications. exact Hquiet. }
assert (Hsdk3' : sdk_installed s3 = true).
{ rewrite Hsdk3. rewrite ?log_keeps_sdk. exact Hsdk. }
clear Hlocated Hcalls3 Hsdk3.
destruct (match GetProjectManager r with
          | Returns (Some pm) =>
              match GetCurrentProject pm with
              | Returns project => Some project
              | Raises _ => None
              end
          | Returns None => Some None
          | Raises _ => None
          end) as [[project|]|].
2:{ quiet_end P. }
2:{ subst P. left. exact Hquiet3. }
set (job_details_of := fun jd : value =>
  build_slack_message
    match GetName project with
    | Returns name => name
    | Raises _ => VStr "(unknown)"
    end global_status global_error jd (get_detailed_status project global_job)).
assert (Hstage : forall jd,
  P ((log ("Slack message: " +:+ job_details_of jd) ;;
      ok <- notify_slack (job_details_of jd) ;;
      log (if ok then "Deliver hook: done (Slack OK)"
           else "Deliver hook: done (Slack FAILED)") ;;
      notify_macos "DaVinci Resolve" (job_details_of jd)) s3)).
{ intros jd. next_log.
  match goal with
  | |- P (bind (notify_slack ?m) _ ?st) =>
      destruct (notify_slack_facts m st) as [[ok Hok] Hposted];
      [ rewrite log_keeps_sdk; exact Hsdk3' | apply Hctor |];
      rewrite (bind_run _ _ _ _ _ (run_eq _ _ _ Hok));
      set (s4 := snd (notify_slack m st)) in *
  end.
  next_log.
  match goal with
  | |- P (notify_macos ?t ?m ?st) =>
      destruct (notify_macos_facts t m st) as [Hdone Hshown]
  end.
  subst P. right. split; [exact Hdone|].
  eexists _, _, _. cbv beta. rewrite Hshown.
  rewrite notifications_app. rewrite log_keeps_notifications.
  rewrite Hposted. rewrite notifications_app.
  rewrite log_keeps_notifications. rewrite Hquiet3. reflexivity. }
destruct (Py.is_none global_job).
- rewrite bind_ret. apply Hstage.
- destruct (get_job_details project global_job) as [jd|e]; cbn [call].
  + rewrite bind_ret. apply Hstage.
  + rewrite bind_raise. subst P. left. exact Hquiet3.
Qed.

End RunShape.

Section RunWithoutProject.
Context {U : Unicode} {E : Env}.

Ltac next_log := erewrite (bind_run _ _ _ _ _ (log_run _ _)); cbv beta.

(** X23: when the host cannot be reached, has no project manager or has
    no current project, or when any of these queries raises, the run makes
    no notification call: no Slack client, no post, no desktop
    notification. *)
Theorem main_without_project (s : state) :
  current_project = None ->
  notifications (calls (snd (main s))) = notifications (calls s).
Proof.
intros Hnone.
set (P := fun r : call_result unit * state =>
  notifications (calls (snd r)) = notifications (calls s)).
change (P (main s)).
unfold main.
destruct (safe_init_from_config s) as [configured Hinit].
pose proof (init_from_config_keeps_calls s) as Hcalls1.
rewrite (bind_run _ _ _ _ _ (run_eq _ _ _ Hinit)).
set (s1 := snd (init_from_config s)) in *.
destruct configured; cbn [negb].
2:{ subst P. unfold ret. simpl. now rewrite Hcalls1. }
destruct (ensure_slack_sdk_installed_facts s1) as [[ready [Hready _]] Hcalls2].
rewrite (bind_run _ _ _ _ _ (run_eq _ _ _ Hready)).
set (s2 := snd (ensure_slack_sdk_installed log s1)) in *.
assert (Hquiet : notifications (calls s2) = notifications (calls s))
  by (rewrite Hcalls2, Hcalls1; reflexivity).
destruct ready; cbn [negb].
2:{ subst P. cbn [snd]. now rewrite log_keeps_notifications. }
next_log.
destruct (Text.first_word sys_version) as [version|].
2:{ rewrite bind_raise. subst P. cbn [snd]. now rewrite ?log_keeps_notifications. }
rewrite bind_ret. do 3 next_log. rewrite bind_read. next_log.
unfold get_globals. cbv beta iota. next_log.
unfold current_project in Hnone.
destruct get_resolve as [r|].
2:{ subst P. cbn [snd]. now rewrite ?log_keeps_notifications. }
match goal with
| |- P (bind ?locate _ ?st) =>
    destruct (locate_facts r st) as (Hlocated & Hcalls3 & _);
    cbv zeta in Hlocated, Hcalls3;
    rewrite (bind_run _ _ _ _ _ (run_eq _ _ _ Hlocated));
    set (s3 := snd (locate st)) in *
end.
assert (Hquiet3 : notifications (calls s3) = notifications (calls s)).
{ unfold notifications in *. rewrite Hcalls3.
  fold (notifications). rewrite ?log_keeps_notifications. exact Hquiet. }
clear Hlocated Hcalls3.
destruct (GetProjectManager r) as [[pm|]|e];
  [destruct (GetCurrentProject pm) as [[project|]|e]; [discriminate Hnone| |]| |];
  subst P; cbn [snd ret]; rewrite ?log_keeps_notifications; exact Hquiet3.
Qed.

End RunWithoutProject.

(** ** The other studios, run *)

Lemma build_slack_message_error_suffix_witness :
  exists front,
    front <> ""
    /\ @build_slack_message Studio.unicode (VStr "MyProj") (VStr "Failed")
         (VStr " Codec error ") Studio.render_job VNone
       = front +:+ " " +:+ "(Error: "
           +:+ Text.strip (@Py.str Studio.unicode (VStr " Codec error ")) +:+ ")".
Proof.
apply (@build_slack_message_error_suffix Studio.unicode (VStr "MyProj") (VStr "Failed")
         (VStr " Codec error ") Studio.render_job VNone).
reflexivity.
Defined.

Lemma log_appends_witness :
  files (snd (@log Studio.cooperative "start" Studio.configured))
    !! @CONFIG_PATH Studio.cooperative
  = files Studio.configured !! @CONFIG_PATH Studio.cooperative
  /\ content (LOG_PATH Studio.configured)
       (snd (@log Studio.cooperative "start" Studio.configured))
     = content (LOG_PATH Studio.configured) Studio.configured
         +:+ "[" +:+ strftime_stamp (@clock Studio.cooperative (S (ticks Studio.configured)))
         +:+ "] " +:+ "start" +:+ Text.nl.
Proof.
split.
- apply (proj1 (@log_appends Studio.cooperative "start" Studio.configured)).
  vm_compute. discriminate.
- apply (proj2 (proj2 (@log_appends Studio.cooperative "start" Studio.configured))).
  + reflexivity.
  + apply (bool_decide_unpack _). vm_compute. exact I.
Defined.

Lemma ensure_config_exists_outcome_witness :
  @ensure_config_exists Studio.cooperative (@CONFIG_PATH Studio.cooperative)
    Studio.configured
  = (Returns true, Studio.configured)
  /\ (fst (@ensure_config_exists Studio.cooperative (@CONFIG_PATH Studio.cooperative)
             Studio.first_run) = Returns false
      /\ calls (snd (@ensure_config_exists Studio.cooperative
                       (@CONFIG_PATH Studio.cooperative) Studio.first_run))
         = calls Studio.first_run).
Proof.
split.
- apply (proj1 (@ensure_config_exists_outcome Studio.cooperative
                  (@CONFIG_PATH Studio.cooperative) Studio.configured)).
  exists Studio.settings. vm_compute. reflexivity.
- apply (proj2 (@ensure_config_exists_outcome Studio.cooperative
                  (@CONFIG_PATH Studio.cooperative) Studio.first_run)).
  reflexivity.
Defined.

Lemma ensure_config_exists_writes_template_witness :
  files (snd (@ensure_config_exists Studio.cooperative (@CONFIG_PATH Studio.cooperative)
                prepared))
    !! @CONFIG_PATH Studio.cooperative
  = Some (Json.dumps 0 (VDict template)).
Proof.
apply (@ensure_config_exists_writes_template Studio.cooperative
         (@CONFIG_PATH Studio.cooperative) prepared).
- reflexivity.
- apply (bool_decide_unpack _). vm_compute. exact I.
- apply (bool_decide_unpack _). vm_compute. exact I.
- reflexivity.
- vm_compute. discriminate.
Defined.

Lemma load_config_outcome_witness :
  @load_config Studio.cooperative (@CONFIG_PATH Studio.cooperative) Studio.configured
  = (if String.eqb (Text.strip Studio.settings) ""
     then Raises (Exception "ValueError" "Config file is empty")
     else match @json_loads Studio.cooperative Studio.settings with
          | Returns (VDict d) => Returns d
          | Returns _ => Raises (Exception "ValueError" "Config root must be a JSON object")
          | Raises e => Raises e
          end,
     Studio.configured).
Proof.
apply (@load_config_outcome Studio.cooperative (@CONFIG_PATH Studio.cooperative)
         Studio.settings Studio.configured).
- vm_compute. reflexivity.
- reflexivity.
- apply (bool_decide_unpack _). vm_compute. exact I.
Defined.

Lemma init_from_config_true_witness :
  slack_token (snd (@init_from_config Studio.unicode Studio.cooperative Studio.configured))
    <> ""
  /\ channel_name (snd (@init_from_config Studio.unicode Studio.cooperative
                          Studio.configured)) <> ""
  /\ Path.dirname (LOG_PATH (snd (@init_from_config Studio.unicode Studio.cooperative
                                    Studio.configured)))
       ∈ dirs (snd (@init_from_config Studio.unicode Studio.cooperative Studio.configured))
  /\ files (snd (@init_from_config Studio.unicode Studio.cooperative Studio.configured))
     = files Studio.configured
  /\ is_Some (files Studio.configured !! @CONFIG_PATH Studio.cooperative).
Proof.
apply (@init_from_config_true Studio.unicode Studio.cooperative Studio.configured).
vm_compute. reflexivity.
Defined.

Lemma ensure_slack_sdk_installed_present_witness :
  fst (@ensure_slack_sdk_installed Studio.cooperative (@log Studio.cooperative)
         Studio.first_run) = Returns true
  /\ calls (snd (@ensure_slack_sdk_installed Studio.cooperative (@log Studio.cooperative)
                   Studio.first_run)) = calls Studio.first_run
  /\ sdk_installed (snd (@ensure_slack_sdk_installed Studio.cooperative
                           (@log Studio.cooperative) Studio.first_run)) = true.
Proof.
apply (@ensure_slack_sdk_installed_present Studio.cooperative Studio.first_run).
reflexivity.
Defined.

Lemma ensure_slack_sdk_installed_missing_witness :
  fst (@ensure_slack_sdk_installed Studio.cooperative (@log Studio.cooperative) bare)
    = Returns (match @pip_run Studio.cooperative with
               | Returns result => (returncode result =? 0)%Z && @pip_installs Studio.cooperative
               | Raises _ => false
               end)
  /\ calls (snd (@ensure_slack_sdk_installed Studio.cooperative (@log Studio.cooperative)
                   bare))
     = (calls bare ++ [Pip (@pip_argv Studio.cooperative)])%list.
Proof.
apply (@ensure_slack_sdk_installed_missing Studio.cooperative bare).
reflexivity.
Defined.

Lemma notify_slack_without_sdk_witness :
  fst (@notify_slack Studio.unicode Studio.cooperative "Complete" bare) = Returns false
  /\ calls (snd (@notify_slack Studio.unicode Studio.cooperative "Complete" bare))
     = calls bare.
Proof.
apply (@notify_slack_without_sdk Studio.unicode Studio.cooperative "Complete" bare).
reflexivity.
Defined.

Lemma notify_slack_outcome_witness :
  fst (@notify_slack Studio.unicode Studio.cooperative "Complete" loaded)
    = Returns (match @chat_postMessage Studio.cooperative (slack_token loaded)
                       (channel_name loaded) "Complete" with
               | Returns (VDict d) => Py.truthy (Py.dict_get d "ok" (VBool true))
               | _ => false
               end)
  /\ calls (snd (@notify_slack Studio.unicode Studio.cooperative "Complete" loaded))
     = (calls loaded ++ [SlackClient (slack_token loaded);
                         SlackPost (channel_name loaded) "Complete"])%list.
Proof.
apply (@notify_slack_outcome Studio.unicode Studio.cooperative "Complete" loaded);
  reflexivity.
Defined.

Lemma notify_slack_delivered_witness :
  snd (@notify_slack Studio.unicode Studio.cooperative "Complete" loaded)
  = with_calls (calls loaded ++ [SlackClient (slack_token loaded);
                                 SlackPost (channel_name loaded) "Complete"])%list loaded.
Proof.
apply (@notify_slack_delivered Studio.unicode Studio.cooperative "Complete" loaded
         [("ok", VBool true)]);
  reflexivity.
Defined.

Lemma notify_slack_logs_api_error_witness :
  console (snd (@notify_slack Studio.unicode slack_rejects "Complete" loaded))
  = (console loaded
       ++ ["[" +:+ strftime_stamp (@clock slack_rejects (ticks loaded))
             +:+ "] SlackApiError: " +:+ @Py.str Studio.unicode (VStr "invalid_auth")])%list.
Proof.
apply (@notify_slack_logs_api_error Studio.unicode slack_rejects "Complete" loaded
         "The request to the Slack API failed." (Some (VStr "invalid_auth")));
  reflexivity.
Defined.

Lemma get_job_details_member_witness :
  Studio.render_job = VNone
  \/ (job_matches (VStr "42") Studio.render_job = true
      /\ exists listed job_list,
           GetRenderJobList Studio.project = Returns listed
           /\ Py.iter (Py.or listed (VList [])) = Returns job_list
           /\ In Studio.render_job job_list).
Proof.
apply (get_job_details_member Studio.project (VStr "42") Studio.render_job).
reflexivity.
Defined.

Lemma get_job_details_not_iterable_witness :
  get_job_details odd_project (VStr "42")
  = Raises (Exception "TypeError" "object is not iterable").
Proof.
apply (get_job_details_not_iterable odd_project (VStr "42") 3);
  [reflexivity | discriminate].
Defined.

Lemma main_notifications_witness :
  notifications (calls (snd (@main Studio.unicode Studio.cooperative Studio.configured)))
    = []
  \/ (fst (@main Studio.unicode Studio.cooperative Studio.configured) = Returns tt
      /\ exists token channel message,
           notifications
             (calls (snd (@main Studio.unicode Studio.cooperative Studio.configured)))
           = [ SlackClient token; SlackPost channel message;
               Osascript (osascript_argv "DaVinci Resolve" message) ]).
Proof.
apply (@main_notifications Studio.unicode Studio.cooperative Studio.configured).
- intros token. reflexivity.
- reflexivity.
Defined.

Lemma main_without_project_witness :
  notifications (calls (snd (@main Studio.unicode hostless Studio.configured)))
  = notifications (calls Studio.configured).
Proof.
apply (@main_without_project Studio.unicode hostless Studio.configured).
reflexivity.
Defined.
